(** * rqalpha booking model: shallow embedding of [rqalpha/model/booking.py]

    The position-booking ledger keeps, per instrument and per direction,
    the quantities and the cost basis implied by a stream of trades, and
    rolls that state over at settlement.

    Conventions of the embedding.
    - Python numbers (quantities, prices, split ratios) are exact
      rationals [Qc]; [/] is true division and raises [ZeroDivisionError]
      on a zero divisor, as Python's does.  The rounding of binary64 is not
      part of this model: the theorems say what each assignment computes
      and which order facts hold, not identities that need exact algebra
      across several rounded operations.
    - A method that mutates [self] is a function from the object's state to
      an [outcome]: the state after the call, together with whether the call
      returned or raised.  A raised exception keeps every mutation made
      before it, as in Python.
    - Python dicts are [gmap]s, the dedupe set is a [gset].
    - Objects held in a dict are mutated in place by the source; the
      embedding writes the mutated object back under its key.  Buckets and
      positions are distinct objects (no object is stored under two keys). *)

From Stdlib Require Import QArith Qcanon PrimFloat.
From stdpp Require Import gmap strings list fin_maps numbers.

Local Open Scope Qc_scope.

(** ** Control flow: return or raise *)

Inductive exn : Set :=
| RuntimeError
| ZeroDivisionError
| KeyError.

Inductive outcome (S : Type) : Type :=
| Returns (s : S)
| Raises (e : exn) (s : S).

Arguments Returns {S} s.
Arguments Raises {S} e s.

Definition state_of {S : Type} (o : outcome S) : S :=
  match o with
  | Returns s => s
  | Raises _ s => s
  end.

Definition bind {S : Type} (o : outcome S) (k : S → outcome S) : outcome S :=
  match o with
  | Returns s => k s
  | Raises e s => Raises e s
  end.

(** Python's [a / b] on numbers. *)
Definition py_div (a b : Qc) : option Qc :=
  if decide (b = 0) then None else Some (a / b).

(** ** Constants of [rqalpha.const] *)

(** Modelled from the spec: the enumeration [SIDE] is declared in
    [rqalpha.const], outside this file.  The spec names the sides BUY and
    SELL and treats "any other side value" as fatal; [SIDE_OTHER] stands for
    any such other value. *)
Inductive SIDE : Set :=
| BUY
| SELL
| SIDE_OTHER.

(** Modelled from the spec: the enumeration [POSITION_EFFECT] is declared in
    [rqalpha.const], outside this file.  The spec names OPEN, CLOSE and
    CLOSE_TODAY and treats "any other resolved effect" as fatal;
    [EFFECT_OTHER] stands for any such other value.  An absent effect
    (Python's [None]) is [None] of [option POSITION_EFFECT]. *)
Inductive POSITION_EFFECT : Set :=
| OPEN
| CLOSE
| CLOSE_TODAY
| EFFECT_OTHER.

(** Modelled from the spec: the enumeration [POSITION_DIRECTION] is declared
    in [rqalpha.const], outside this file; the spec names LONG and SHORT. *)
Inductive POSITION_DIRECTION : Set :=
| LONG
| SHORT.

Global Instance SIDE_eq_dec : EqDecision SIDE.
Proof. solve_decision. Defined.

Global Instance POSITION_EFFECT_eq_dec : EqDecision POSITION_EFFECT.
Proof. solve_decision. Defined.

Global Instance POSITION_DIRECTION_eq_dec : EqDecision POSITION_DIRECTION.
Proof. solve_decision. Defined.

(** ** External collaborators *)

(** A calendar date, as a day number. *)
Definition date : Set := Z.

Bind Scope Z_scope with date.

(** A [datetime]: a date and a time of day; [.date()] is [dt_date]. *)
Record datetime : Set := mk_datetime {
  dt_date : date;
  dt_time : Z
}.

Global Instance datetime_eq_dec : EqDecision datetime.
Proof. solve_decision. Defined.

(** Modelled from the spec: instrument metadata (type, delisting date,
    contract multiplier) as returned by the data proxy's [instruments]; the
    class [Instrument] is declared in [rqalpha.model.instrument]. *)
Record Instrument : Set := mk_Instrument {
  type : string;
  de_listed_date : option datetime;
  contract_multiplier : Qc
}.

(** Modelled from the spec: the read-only reference-data provider
    ([data_proxy]).  Its queries are synchronous and side-effect free; they
    are total functions here (a provider that raises is outside the model).
    [get_split_by_ex_date] gives the split ratio or [None];
    [history_bars] gives the single daily bar the source selects with [[0]]. *)
Record DataProxy : Type := mk_DataProxy {
  get_next_trading_date : date → datetime;
  get_previous_trading_date : datetime → datetime;
  get_split_by_ex_date : string → date → option Qc;
  instruments : string → Instrument;
  get_settle_price : string → date → Qc;
  history_bars : string → Z → string → string → date → Qc
}.

(** Modelled from the spec: the price snapshot returned by the data proxy's
    [current_snapshot]; only its field [last] is read. *)
Module Snapshot.

Record t : Set := mk { last : Qc }.

End Snapshot.

(** ** Trades *)

Record Trade : Set := mk_Trade {
  exec_id : Z;
  order_book_id : string;
  side : SIDE;
  position_effect : option POSITION_EFFECT;
  last_price : Qc;
  last_quantity : Qc
}.

(** ** [class BookingPosition] *)

Module BookingPosition.

Record t : Type := mk {
  _data_proxy : DataProxy;
  _order_book_id : string;
  _direction : POSITION_DIRECTION;
  _old_quantity : Qc;
  _logical_old_quantity : Qc;
  _today_quantity : Qc;
  _avg_price : Qc;
  _prev_settlement_price : Qc;
  _trades : gmap Z Trade
}.

(** [__init__] with its default arguments. *)
Definition init (data_proxy : DataProxy) (order_book_id : string)
    (direction : POSITION_DIRECTION) : t :=
  {| _data_proxy := data_proxy;
     _order_book_id := order_book_id;
     _direction := direction;
     _old_quantity := 0;
     _logical_old_quantity := 0;
     _today_quantity := 0;
     _avg_price := 0;
     _prev_settlement_price := 0;
     _trades := ∅ |}.

(** Attribute assignments [self._x = v]. *)
Definition set_old_quantity (v : Qc) (self : t) : t :=
  mk (_data_proxy self) (_order_book_id self) (_direction self)
     v (_logical_old_quantity self) (_today_quantity self)
     (_avg_price self) (_prev_settlement_price self) (_trades self).

Definition set_logical_old_quantity (v : Qc) (self : t) : t :=
  mk (_data_proxy self) (_order_book_id self) (_direction self)
     (_old_quantity self) v (_today_quantity self)
     (_avg_price self) (_prev_settlement_price self) (_trades self).

Definition set_today_quantity (v : Qc) (self : t) : t :=
  mk (_data_proxy self) (_order_book_id self) (_direction self)
     (_old_quantity self) (_logical_old_quantity self) v
     (_avg_price self) (_prev_settlement_price self) (_trades self).

Definition set_avg_price (v : Qc) (self : t) : t :=
  mk (_data_proxy self) (_order_book_id self) (_direction self)
     (_old_quantity self) (_logical_old_quantity self) (_today_quantity self)
     v (_prev_settlement_price self) (_trades self).

Definition set_prev_settlement_price (v : Qc) (self : t) : t :=
  mk (_data_proxy self) (_order_book_id self) (_direction self)
     (_old_quantity self) (_logical_old_quantity self) (_today_quantity self)
     (_avg_price self) v (_trades self).

Definition set_trades (v : gmap Z Trade) (self : t) : t :=
  mk (_data_proxy self) (_order_book_id self) (_direction self)
     (_old_quantity self) (_logical_old_quantity self) (_today_quantity self)
     (_avg_price self) (_prev_settlement_price self) v.

(** Properties. *)
Definition old_quantity (self : t) : Qc := _old_quantity self.
Definition today_quantity (self : t) : Qc := _today_quantity self.
Definition avg_price (self : t) : Qc := _avg_price self.
Definition prev_settlement_price (self : t) : Qc := _prev_settlement_price self.

Definition quantity (self : t) : Qc := old_quantity self + today_quantity self.

(** [_get_position_effect(side, position_effect)] *)
Definition _get_position_effect (side : SIDE)
    (position_effect : option POSITION_EFFECT) : option POSITION_EFFECT :=
  match position_effect with
  | None =>
      match side with
      | BUY => Some OPEN
      | SELL => Some CLOSE
      | SIDE_OTHER => position_effect
      end
  | Some _ => position_effect
  end.

(** [apply_settlement(trading_date)] *)
Definition apply_settlement (self : t) (trading_date : date) : t :=
  let next_trading_date :=
    dt_date (get_next_trading_date (_data_proxy self) trading_date) in
  (* today's quantity becomes old quantity *)
  let self := set_old_quantity (_old_quantity self + _today_quantity self) self in
  let self := set_logical_old_quantity (_old_quantity self) self in
  let self := set_today_quantity 0 self in
  (* splits; the test [if split_ratio:] is false on [None] and on 0 *)
  let split_ratio :=
    get_split_by_ex_date (_data_proxy self) (_order_book_id self) next_trading_date in
  let self :=
    match split_ratio with
    | Some r =>
        if decide (r = 0) then self
        else
          let self := set_old_quantity (_old_quantity self * r) self in
          set_avg_price (_avg_price self / r) self
    | None => self
    end in
  (* drop the cached trades *)
  let self := set_trades ∅ self in
  (* refresh the settlement price *)
  if decide (type (instruments (_data_proxy self) (_order_book_id self)) = "Future")
  then
    set_prev_settlement_price
      (get_settle_price (_data_proxy self) (_order_book_id self) trading_date) self
  else
    set_prev_settlement_price
      (history_bars (_data_proxy self) (_order_book_id self) 1 "1d" "close" trading_date)
      self.

(** [self._trades[trade.exec_id] = trade], the last statement of
    [apply_trade]. *)
Definition record_trade (trade : Trade) (self : t) : t :=
  set_trades (<[exec_id trade := trade]> (_trades self)) self.

(** [apply_trade(trade)] *)
Definition apply_trade (self : t) (trade : Trade) : outcome t :=
  match _trades self !! exec_id trade with
  | Some _ => Returns self
  | None =>
      let record (self : t) : outcome t := Returns (record_trade trade self) in
      match _get_position_effect (side trade) (position_effect trade) with
      | Some OPEN =>
          if decide (quantity self < 0) then
            let self :=
              if decide (last_quantity trade ≤ -1 * quantity self)
              then set_avg_price 0 self
              else set_avg_price (last_price trade) self in
            record (set_today_quantity (_today_quantity self + last_quantity trade) self)
          else
            match py_div
                    (quantity self * _avg_price self
                     + last_quantity trade * last_price trade)
                    (quantity self + last_quantity trade) with
            | None => Raises ZeroDivisionError self
            | Some a =>
                let self := set_avg_price a self in
                record (set_today_quantity
                          (_today_quantity self + last_quantity trade) self)
            end
      | Some CLOSE_TODAY =>
          record (set_today_quantity (_today_quantity self - last_quantity trade) self)
      | Some CLOSE =>
          (* close old before today *)
          let self := set_old_quantity (_old_quantity self - last_quantity trade) self in
          if decide (_old_quantity self < 0) then
            let self :=
              set_today_quantity (_today_quantity self + _old_quantity self) self in
            record (set_old_quantity 0 self)
          else record self
      | _ => Raises RuntimeError self
      end
  end.

Section de_listed.

(** [Instrument.DEFAULT_DE_LISTED_DATE], the "no delisting" sentinel, is a
    class constant declared outside this file: it is a parameter here. *)
Variable DEFAULT_DE_LISTED_DATE : datetime.

(** [is_de_listed(trading_date)] *)
Definition is_de_listed (self : t) (trading_date : date) : bool :=
  let instrument := instruments (_data_proxy self) (_order_book_id self) in
  match de_listed_date instrument with
  | None => false
  | Some dld =>
      if decide (dld = DEFAULT_DE_LISTED_DATE) then false
      else if decide (type instrument = "Future")
      then bool_decide (dt_date dld ≤ trading_date)%Z
      else bool_decide
             (dt_date (get_previous_trading_date (_data_proxy self) dld)
              ≤ trading_date)%Z
  end.

End de_listed.

Section pnl.

(** [data_proxy.current_snapshot(order_book_id)], a query of the external
    provider: a parameter here. *)
Variable current_snapshot : DataProxy → string → Snapshot.t.

(** The property [last_price]. *)
Definition last_price (self : t) : Qc :=
  Snapshot.last (current_snapshot (_data_proxy self) (_order_book_id self)).

(** One iteration of the loop of [trading_pnl]. *)
Definition trading_pnl_step (self : t) (trade : Trade) (pnl : Qc) : Qc :=
  let 'mk_Trade _ _ trade_side _ trade_last_price trade_last_quantity := trade in
  let price_spread :=
    if decide (trade_side = BUY)
    then last_price self - trade_last_price
    else trade_last_price - last_price self in
  let contract_multiplier :=
    contract_multiplier (instruments (_data_proxy self) (_order_book_id self)) in
  pnl + trade_last_quantity * contract_multiplier * price_spread.

(** The property [trading_pnl]: the loop over [self._trades.values()]. *)
Definition trading_pnl (self : t) : Qc :=
  map_fold (λ _ trade pnl, trading_pnl_step self trade pnl) 0 (_trades self).

(** The property [position_pnl]. *)
Definition position_pnl (self : t) : Qc :=
  if decide (_logical_old_quantity self = 0) then 0
  else
    let price_spread :=
      if decide (_direction self = LONG)
      then last_price self - _prev_settlement_price self
      else _prev_settlement_price self - last_price self in
    let contract_multiplier :=
      contract_multiplier (instruments (_data_proxy self) (_order_book_id self)) in
    _logical_old_quantity self * contract_multiplier * price_spread.

End pnl.

End BookingPosition.

(** ** [class BookingPositions(dict)] *)

Module BookingPositions.

(** The dict part is [items]; [direction] and [_data_proxy] are the two
    attributes the subclass adds. *)
Record t : Type := mk {
  direction : POSITION_DIRECTION;
  _data_proxy : DataProxy;
  items : gmap string BookingPosition.t
}.

Definition init (data_proxy : DataProxy) (direction : POSITION_DIRECTION) : t :=
  {| direction := direction; _data_proxy := data_proxy; items := ∅ |}.

Definition set_items (v : gmap string BookingPosition.t) (self : t) : t :=
  mk (direction self) (_data_proxy self) v.

(** [self[key] = value] *)
Definition setitem (key : string) (value : BookingPosition.t) (self : t) : t :=
  set_items (<[key := value]> (items self)) self.

(** [__missing__(key)]: store a fresh position under [key] and return it. *)
Definition __missing__ (self : t) (key : string) : BookingPosition.t * t :=
  let self :=
    setitem key (BookingPosition.init (_data_proxy self) key (direction self)) self in
  (default (BookingPosition.init (_data_proxy self) key (direction self))
           (items self !! key),
   self).

(** [self[key]]: dict lookup, falling back on [__missing__]. *)
Definition getitem (self : t) (key : string) : BookingPosition.t * t :=
  match items self !! key with
  | Some position => (position, self)
  | None => __missing__ self key
  end.

Definition get_or_create (self : t) (key : string) : BookingPosition.t * t :=
  getitem self key.

(** [self.pop(key)]: [KeyError] when the key is absent. *)
Definition pop (key : string) (self : t) : outcome t :=
  match items self !! key with
  | Some _ => Returns (set_items (delete key (items self)) self)
  | None => Raises KeyError self
  end.

End BookingPositions.

(** ** [class BookingModel] *)

Module BookingModel.

(** [_positions_dict] has exactly the two keys LONG and SHORT: it is the
    pair of buckets [long_positions], [short_positions]. *)
Record t : Type := mk {
  _data_proxy : DataProxy;
  long_positions : BookingPositions.t;
  short_positions : BookingPositions.t;
  _backward_trade_set : gset Z
}.

(** [__init__] with its default arguments. *)
Definition init (data_proxy : DataProxy) : t :=
  {| _data_proxy := data_proxy;
     long_positions := BookingPositions.init data_proxy LONG;
     short_positions := BookingPositions.init data_proxy SHORT;
     _backward_trade_set := ∅ |}.

(** [self._positions_dict[direction]] *)
Definition _positions_dict (self : t) (direction : POSITION_DIRECTION)
    : BookingPositions.t :=
  match direction with
  | LONG => long_positions self
  | SHORT => short_positions self
  end.

(** The bucket under [direction] after a mutation of that bucket. *)
Definition set_positions (direction : POSITION_DIRECTION)
    (positions : BookingPositions.t) (self : t) : t :=
  match direction with
  | LONG => mk (_data_proxy self) positions (short_positions self)
               (_backward_trade_set self)
  | SHORT => mk (_data_proxy self) (long_positions self) positions
                (_backward_trade_set self)
  end.

Definition set_backward_trade_set (v : gset Z) (self : t) : t :=
  mk (_data_proxy self) (long_positions self) (short_positions self) v.

(** [get_position(order_book_id, direction)]: the lookup may create the
    position, so the ledger after the call is returned as well. *)
Definition get_position (self : t) (order_book_id : string)
    (direction : POSITION_DIRECTION) : BookingPosition.t * t :=
  let '(position, positions) :=
    BookingPositions.getitem (_positions_dict self direction) order_book_id in
  (position, set_positions direction positions self).

(** One iteration of the inner loop of [get_positions]. *)
Definition get_positions_step (order_book_id : string)
    (position : BookingPosition.t) (total_positions : list BookingPosition.t)
    : list BookingPosition.t :=
  if decide (BookingPosition.quantity position = 0) then total_positions
  else total_positions ++ [position].

(** [get_positions()]: the positions of non-zero quantity, the LONG bucket
    first; within a bucket the order is that of the map's enumeration. *)
Definition get_positions (self : t) : list BookingPosition.t :=
  foldl
    (λ total_positions direction,
       map_fold get_positions_step total_positions
         (BookingPositions.items (_positions_dict self direction)))
    [] [LONG; SHORT].

(** The bucket [apply_trade] selects; [None] is the [raise RuntimeError]
    of an unknown side. *)
Definition select_direction (trade : Trade) : option POSITION_DIRECTION :=
  match position_effect trade with
  | Some OPEN =>
      match side trade with
      | BUY => Some LONG
      | SELL => Some SHORT
      | SIDE_OTHER => None
      end
  | Some CLOSE | Some CLOSE_TODAY =>
      match side trade with
      | BUY => Some SHORT
      | SELL => Some LONG
      | SIDE_OTHER => None
      end
  | _ => Some LONG
  end.

(** [position.apply_trade(trade)] on the position object held by the bucket
    [direction] under [order_book_id]: the bucket sees the mutation. *)
Definition position_apply_trade (self : t) (direction : POSITION_DIRECTION)
    (order_book_id : string) (position : BookingPosition.t) (trade : Trade)
    : outcome t :=
  let store (position : BookingPosition.t) : t :=
    set_positions direction
      (BookingPositions.setitem order_book_id position
         (_positions_dict self direction)) self in
  match BookingPosition.apply_trade position trade with
  | Returns position => Returns (store position)
  | Raises e position => Raises e (store position)
  end.

(** [apply_trade(trade)] *)
Definition apply_trade (self : t) (trade : Trade) : outcome t :=
  if decide (exec_id trade ∈ _backward_trade_set self) then Returns self
  else
    let order_book_id := order_book_id trade in
    match select_direction trade with
    | None => Raises RuntimeError self
    | Some direction =>
        let '(position, self) := get_position self order_book_id direction in
        bind (position_apply_trade self direction order_book_id position trade)
          (λ self,
             Returns (set_backward_trade_set
                        ({[exec_id trade]} ∪ _backward_trade_set self) self))
    end.

Section settlement.

Variable DEFAULT_DE_LISTED_DATE : datetime.

(** The test of the settlement loop:
    [position.is_de_listed(trading_date) or position.quantity == 0]. *)
Definition to_delete (trading_date : date) (position : BookingPosition.t) : bool :=
  BookingPosition.is_de_listed DEFAULT_DE_LISTED_DATE position trading_date
  || bool_decide (BookingPosition.quantity position = 0).

(** One iteration of the inner loop of [apply_settlement], on the entry
    [(order_book_id, position)] of the bucket [direction]; the state is the
    delete list and the bucket. *)
Definition scan_step (trading_date : date) (direction : POSITION_DIRECTION)
    (order_book_id : string) (position : BookingPosition.t)
    (st : list (string * POSITION_DIRECTION) * BookingPositions.t)
    : list (string * POSITION_DIRECTION) * BookingPositions.t :=
  if to_delete trading_date position
  then (st.1 ++ [(order_book_id, direction)], st.2)
  else (st.1,
        BookingPositions.setitem order_book_id
          (BookingPosition.apply_settlement position trading_date) st.2).

(** The inner loop over one bucket. *)
Definition scan_bucket (trading_date : date) (direction : POSITION_DIRECTION)
    (positions : BookingPositions.t)
    (delete_list : list (string * POSITION_DIRECTION))
    : list (string * POSITION_DIRECTION) * BookingPositions.t :=
  map_fold (scan_step trading_date direction) (delete_list, positions)
    (BookingPositions.items positions).

(** The first loop of [apply_settlement]: both buckets scanned. *)
Definition scan (self : t) (trading_date : date)
    : list (string * POSITION_DIRECTION) * t :=
  let '(delete_list, long) :=
    scan_bucket trading_date LONG (_positions_dict self LONG) [] in
  let self := set_positions LONG long self in
  let '(delete_list, short) :=
    scan_bucket trading_date SHORT (_positions_dict self SHORT) delete_list in
  (delete_list, set_positions SHORT short self).

(** The second loop of [apply_settlement]: the deferred deletions. *)
Fixpoint pop_all (delete_list : list (string * POSITION_DIRECTION)) (self : t)
    : outcome t :=
  match delete_list with
  | [] => Returns self
  | (order_book_id, direction) :: delete_list =>
      match BookingPositions.pop order_book_id (_positions_dict self direction) with
      | Returns positions => pop_all delete_list (set_positions direction positions self)
      | Raises e positions => Raises e (set_positions direction positions self)
      end
  end.

(** [apply_settlement(trading_date)] *)
Definition apply_settlement (self : t) (trading_date : date) : outcome t :=
  let '(delete_list, self) := scan self trading_date in
  pop_all delete_list self.

End settlement.

End BookingModel.

(** ** [class Booking(BookingModel)]

    The subclass overrides [apply_trade] with the same dispatch written
    against [get_or_create]. *)

Module Booking.

Definition apply_trade (self : BookingModel.t) (trade : Trade)
    : outcome BookingModel.t :=
  if decide (exec_id trade ∈ BookingModel._backward_trade_set self) then Returns self
  else
    let order_book_id := order_book_id trade in
    let long_positions := BookingModel._positions_dict self LONG in
    let short_positions := BookingModel._positions_dict self SHORT in
    let get_or_create (direction : POSITION_DIRECTION) :=
      let '(position, positions) :=
        BookingPositions.get_or_create
          (match direction with LONG => long_positions | SHORT => short_positions end)
          order_book_id in
      (position, BookingModel.set_positions direction positions self) in
    let selected :=
      match position_effect trade with
      | Some OPEN =>
          match side trade with
          | BUY => Some LONG
          | SELL => Some SHORT
          | SIDE_OTHER => None
          end
      | Some CLOSE | Some CLOSE_TODAY =>
          match side trade with
          | BUY => Some SHORT
          | SELL => Some LONG
          | SIDE_OTHER => None
          end
      | _ => Some LONG
      end in
    match selected with
    | None => Raises RuntimeError self
    | Some direction =>
        let '(position, self) := get_or_create direction in
        bind (BookingModel.position_apply_trade self direction order_book_id
                position trade)
          (λ self,
             Returns (BookingModel.set_backward_trade_set
                        ({[exec_id trade]} ∪ BookingModel._backward_trade_set self)
                        self))
    end.

End Booking.

Module BP := BookingPosition.
Module BM := BookingModel.

(** ** Sample data, used to run the model on concrete inputs *)

Module Sample.

(** A provider for a stock ["000001.XSHE"]: no delisting, next trading date
    the following day, close of any day 42, and the given split table. *)
Definition proxy (split : string → date → option Qc) : DataProxy :=
  {| get_next_trading_date := λ d, mk_datetime (d + 1)%Z 0;
     get_previous_trading_date := λ dt, mk_datetime (dt_date dt - 1)%Z 0;
     get_split_by_ex_date := split;
     instruments := λ _, mk_Instrument "CS" None 1;
     get_settle_price := λ _ _, Qc_of_Z 41;
     history_bars := λ _ _ _ _ _, Qc_of_Z 42 |}.

Definition no_split : DataProxy := proxy (λ _ _, None).

Definition split_by (r : Qc) : DataProxy := proxy (λ _ _, Some r).

(** A provider whose only instrument is delisted on day 10. *)
Definition delisted : DataProxy :=
  {| get_next_trading_date := λ d, mk_datetime (d + 1)%Z 0;
     get_previous_trading_date := λ dt, mk_datetime (dt_date dt - 1)%Z 0;
     get_split_by_ex_date := λ _ _, None;
     instruments := λ _, mk_Instrument "Future" (Some (mk_datetime 10 0)) 1;
     get_settle_price := λ _ _, Qc_of_Z 41;
     history_bars := λ _ _ _ _ _, Qc_of_Z 42 |}.

(** The sentinel used with the sample providers. *)
Definition sentinel : datetime := mk_datetime 365000 0.

Definition position_of (id : string) (dir : POSITION_DIRECTION) (dp : DataProxy)
    (old today avg : Z) (trades : gmap Z Trade) : BookingPosition.t :=
  BookingPosition.mk dp id dir (Qc_of_Z old) (Qc_of_Z old)
    (Qc_of_Z today) (Qc_of_Z avg) 0 trades.

Definition position : DataProxy → Z → Z → Z → gmap Z Trade → BookingPosition.t :=
  position_of "000001.XSHE" LONG.

Definition trade (id : Z) (s : SIDE) (e : option POSITION_EFFECT) (price qty : Z)
    : Trade :=
  mk_Trade id "000001.XSHE" s e (Qc_of_Z price) (Qc_of_Z qty).

(** A ledger holding one long position. *)
Definition ledger (p : BookingPosition.t) (seen : gset Z) : BookingModel.t :=
  BookingModel.mk (BookingPosition._data_proxy p)
    (BookingPositions.mk LONG (BookingPosition._data_proxy p)
       {[ BookingPosition._order_book_id p := p ]})
    (BookingPositions.init (BookingPosition._data_proxy p) SHORT)
    seen.

(** A ledger with a live and a flat long position and a delisted short
    one. *)
Definition live : BookingPosition.t := position no_split 5 3 100 ∅.

Definition flat : BookingPosition.t :=
  position_of "000002.XSHE" LONG no_split 0 0 100 ∅.

Definition expired : BookingPosition.t :=
  position_of "IF1906" SHORT delisted 4 0 3000 ∅.

Definition book : BookingModel.t :=
  BookingModel.mk no_split
    (BookingPositions.mk LONG no_split
       (<["000001.XSHE" := live]> (<["000002.XSHE" := flat]> ∅)))
    (BookingPositions.mk SHORT no_split (<["IF1906" := expired]> ∅))
    ∅.

End Sample.

(** ** Vocabulary of the statements *)

(** The position [get_position] hands to [apply_trade]: the one stored in
    the bucket [d] under [order_book_id], or the fresh one created there. *)
Definition target_position (m : BookingModel.t) (order_book_id : string)
    (d : POSITION_DIRECTION) : BookingPosition.t :=
  default
    (BookingPosition.init (BookingPositions._data_proxy (BM._positions_dict m d))
       order_book_id (BookingPositions.direction (BM._positions_dict m d)))
    (BookingPositions.items (BM._positions_dict m d) !! order_book_id).

(** The ledger in which the bucket [d] holds [p] under [order_book_id]. *)
Definition with_position (m : BookingModel.t) (order_book_id : string)
    (d : POSITION_DIRECTION) (p : BookingPosition.t) : BookingModel.t :=
  BM.set_positions d
    (BookingPositions.setitem order_book_id p (BM._positions_dict m d)) m.

(** [trade] handed to the bucket [d]: the position of the trade's instrument
    in that bucket (created if absent) receives
    [BookingPosition.apply_trade]; when that returns the execution id joins
    [_backward_trade_set]. *)
Definition delivered (m : BookingModel.t) (trade : Trade)
    (d : POSITION_DIRECTION) : outcome BookingModel.t :=
  let k := order_book_id trade in
  match BP.apply_trade (target_position m k d) trade with
  | Returns p =>
      Returns
        (BM.set_backward_trade_set ({[exec_id trade]} ∪ BM._backward_trade_set m)
           (with_position m k d p))
  | Raises e p => Raises e (with_position m k d p)
  end.

(** [BookingModel.apply_trade] routes [trade] to the bucket [d] and to no
    other: the call is the delivery to [d], after it the bucket [d] holds
    under the trade's instrument the position that received the trade, and
    every other entry of either bucket is as before. *)
Definition routed_to (m : BookingModel.t) (trade : Trade)
    (d : POSITION_DIRECTION) : Prop :=
  let k := order_book_id trade in
  let m' := state_of (BM.apply_trade m trade) in
  BM.apply_trade m trade = delivered m trade d ∧
  BookingPositions.items (BM._positions_dict m' d) !! k
    = Some (state_of (BP.apply_trade (target_position m k d) trade)) ∧
  (∀ k', k' ≠ k →
     BookingPositions.items (BM._positions_dict m' d) !! k'
     = BookingPositions.items (BM._positions_dict m d) !! k') ∧
  (∀ d', d' ≠ d → BM._positions_dict m' d' = BM._positions_dict m d').

(** The split ratio [apply_settlement(trading_date)] looks up: the one
    effective on the next trading date. *)
Definition split_ratio (self : BookingPosition.t) (trading_date : date)
    : option Qc :=
  get_split_by_ex_date (BP._data_proxy self) (BP._order_book_id self)
    (dt_date (get_next_trading_date (BP._data_proxy self) trading_date)).

(** The price [apply_settlement(trading_date)] stores in
    [_prev_settlement_price]: the settlement price of the day for a future,
    the last daily close otherwise. *)
Definition settlement_price (self : BookingPosition.t) (trading_date : date)
    : Qc :=
  if decide (type (instruments (BP._data_proxy self) (BP._order_book_id self))
             = "Future")
  then get_settle_price (BP._data_proxy self) (BP._order_book_id self) trading_date
  else history_bars (BP._data_proxy self) (BP._order_book_id self) 1 "1d" "close"
         trading_date.

(** What the first loop of the ledger's [apply_settlement] leaves under a
    key that held [p]: [p] itself when it is marked for deletion, the
    settled [p] otherwise. *)
Definition scanned_entry (DEFAULT_DE_LISTED_DATE : datetime) (trading_date : date)
    (p : BookingPosition.t) : BookingPosition.t :=
  if BP.is_de_listed DEFAULT_DE_LISTED_DATE p trading_date
     || bool_decide (BP.quantity p = 0)
  then p
  else BP.apply_settlement p trading_date.

(** What the ledger's [apply_settlement] leaves under a key that held [p]:
    nothing when [p] is delisted or flat, the settled [p] otherwise. *)
Definition settled_entry (DEFAULT_DE_LISTED_DATE : datetime) (trading_date : date)
    (p : BookingPosition.t) : option BookingPosition.t :=
  if BP.is_de_listed DEFAULT_DE_LISTED_DATE p trading_date
     || bool_decide (BP.quantity p = 0)
  then None
  else Some (BP.apply_settlement p trading_date).

(** The entries of the ledger: [p] is stored in the bucket [d] under [k]. *)
Definition stored (m : BookingModel.t) (d : POSITION_DIRECTION) (k : string)
    (p : BookingPosition.t) : Prop :=
  BookingPositions.items (BM._positions_dict m d) !! k = Some p.

(** Every position sits under its own instrument, in a bucket of its own
    direction, and shares the bucket's data proxy: what [__missing__]
    establishes for the positions it creates. *)
Definition well_keyed (m : BookingModel.t) : Prop :=
  ∀ d k p, stored m d k p →
    BP._order_book_id p = k ∧
    BP._direction p = BookingPositions.direction (BM._positions_dict m d) ∧
    BP._data_proxy p = BookingPositions._data_proxy (BM._positions_dict m d).

(** Every execution id cached by a position of the ledger is in the
    ledger's dedupe set. *)
Definition trades_deduped (m : BookingModel.t) : Prop :=
  ∀ d k p id, stored m d k p →
    is_Some (BP._trades p !! id) → id ∈ BM._backward_trade_set m.

(** The split adjustment of [apply_settlement], the two assignments
    [self._old_quantity *= split_ratio] and [self._avg_price /= split_ratio],
    in binary64, the arithmetic they run in when quantities and prices are
    Python floats (as the docstrings of the properties declare them). *)
Definition split_adjustment_binary64 (old_quantity avg_price split_ratio : float)
    : float * float :=
  (PrimFloat.mul old_quantity split_ratio, PrimFloat.div avg_price split_ratio).

(** * Properties *)

(** ** Arithmetic on the sample numbers *)

Lemma Qc_of_Z_sub (a b : Z) : Qc_of_Z a - Qc_of_Z b = Qc_of_Z (a - b).
Proof. by rewrite Z2Qc_inj_sub. Qed.

Lemma Qc_of_Z_add (a b : Z) : Qc_of_Z a + Qc_of_Z b = Qc_of_Z (a + b).
Proof. by rewrite Z2Qc_inj_add. Qed.

Lemma Qc_of_Z_mul (a b : Z) : Qc_of_Z a * Qc_of_Z b = Qc_of_Z (a * b).
Proof. by rewrite Z2Qc_inj_mul. Qed.

Lemma Qc_of_Z_0 : Qc_of_Z 0 = 0.
Proof. by apply Qc_is_canon. Qed.

Lemma py_div_nonzero (a b : Qc) : b ≠ 0 → py_div a b = Some (a / b).
Proof. intros Hb. unfold py_div. by destruct (decide (b = 0)). Qed.

Lemma py_div_zero (a : Qc) : py_div a 0 = None.
Proof. unfold py_div. by destruct (decide (0 = 0)). Qed.

(** ** [BookingPosition.apply_trade], branch by branch *)

Section position_apply_trade.

Variables (self : BookingPosition.t) (trade : Trade).

Hypothesis fresh : BP._trades self !! exec_id trade = None.

Lemma apply_trade_CLOSE :
  BP._get_position_effect (side trade) (position_effect trade) = Some CLOSE →
  BP.apply_trade self trade =
    Returns
      (if decide (BP._old_quantity self - last_quantity trade < 0)
       then BP.record_trade trade
              (BP.set_old_quantity 0
                 (BP.set_today_quantity
                    (BP._today_quantity self
                     + (BP._old_quantity self - last_quantity trade))
                    self))
       else BP.record_trade trade
              (BP.set_old_quantity (BP._old_quantity self - last_quantity trade)
                 self)).
Proof.
  intros He. unfold BP.apply_trade. rewrite fresh, He. simpl.
  by destruct (decide (BP._old_quantity self - last_quantity trade < 0)).
Qed.

Lemma apply_trade_CLOSE_TODAY :
  BP._get_position_effect (side trade) (position_effect trade) = Some CLOSE_TODAY →
  BP.apply_trade self trade =
    Returns
      (BP.record_trade trade
         (BP.set_today_quantity (BP._today_quantity self - last_quantity trade)
            self)).
Proof. intros He. unfold BP.apply_trade. by rewrite fresh, He. Qed.

Lemma apply_trade_OPEN_negative :
  BP._get_position_effect (side trade) (position_effect trade) = Some OPEN →
  BP.quantity self < 0 →
  BP.apply_trade self trade =
    Returns
      (BP.record_trade trade
         (BP.set_today_quantity (BP._today_quantity self + last_quantity trade)
            (BP.set_avg_price
               (if decide (last_quantity trade ≤ -1 * BP.quantity self)
                then 0 else last_price trade)
               self))).
Proof.
  intros He Hq. unfold BP.apply_trade. rewrite fresh, He.
  destruct (decide (BP.quantity self < 0)); [|done].
  by destruct (decide (last_quantity trade ≤ -1 * BP.quantity self)).
Qed.

Lemma apply_trade_OPEN_nonnegative :
  BP._get_position_effect (side trade) (position_effect trade) = Some OPEN →
  ¬ BP.quantity self < 0 →
  BP.apply_trade self trade =
    match py_div
            (BP.quantity self * BP._avg_price self
             + last_quantity trade * last_price trade)
            (BP.quantity self + last_quantity trade) with
    | None => Raises ZeroDivisionError self
    | Some a =>
        Returns
          (BP.record_trade trade
             (BP.set_today_quantity (BP._today_quantity self + last_quantity trade)
                (BP.set_avg_price a self)))
    end.
Proof.
  intros He Hq. unfold BP.apply_trade. rewrite fresh, He.
  destruct (decide (BP.quantity self < 0)); [done|].
  by destruct (py_div _ _).
Qed.

Lemma known_effect (e : option POSITION_EFFECT) :
  e ∈ [Some OPEN; Some CLOSE; Some CLOSE_TODAY]
  ↔ e = Some OPEN ∨ e = Some CLOSE ∨ e = Some CLOSE_TODAY.
Proof. rewrite !elem_of_cons, elem_of_nil. tauto. Qed.

Lemma apply_trade_unknown_effect :
  BP._get_position_effect (side trade) (position_effect trade) ∉
    [Some OPEN; Some CLOSE; Some CLOSE_TODAY] →
  BP.apply_trade self trade = Raises RuntimeError self.
Proof.
  intros He. unfold BP.apply_trade. rewrite fresh.
  rewrite known_effect in He.
  destruct (BP._get_position_effect _ _) as [[]|]; try done;
    exfalso; apply He; auto.
Qed.

End position_apply_trade.

Lemma apply_trade_seen (self : BookingPosition.t) (trade : Trade) :
  is_Some (BP._trades self !! exec_id trade) →
  BP.apply_trade self trade = Returns self.
Proof. intros [x Hx]. unfold BP.apply_trade. by rewrite Hx. Qed.

(** ** Closing trades *)

(** C1.  A trade whose effect resolves to CLOSE (it reaches the resolution
    step: its execution id is not in the position's trades) takes its
    quantity off [old_quantity]; a negative remainder is added to
    [today_quantity] and [old_quantity] becomes 0.  The other quantities and
    the average price are untouched and the trade is recorded.  With
    [old_quantity = 5], [today_quantity = 3] and a CLOSE of 6 the position
    ends with [old_quantity = 0] and [today_quantity = 2]. *)
Theorem close_old_before_today (self : BookingPosition.t) (trade : Trade) :
  BP._trades self !! exec_id trade = None →
  BP._get_position_effect (side trade) (position_effect trade) = Some CLOSE →
  let rest := BP._old_quantity self - last_quantity trade in
  ∃ self',
    BP.apply_trade self trade = Returns self' ∧
    BP._old_quantity self' = (if decide (rest < 0) then 0 else rest) ∧
    BP._today_quantity self' =
      (if decide (rest < 0) then BP._today_quantity self + rest
       else BP._today_quantity self) ∧
    BP._logical_old_quantity self' = BP._logical_old_quantity self ∧
    BP._avg_price self' = BP._avg_price self ∧
    BP._trades self' = <[exec_id trade := trade]> (BP._trades self) ∧
    (BP._old_quantity self = Qc_of_Z 5 →
     BP._today_quantity self = Qc_of_Z 3 →
     last_quantity trade = Qc_of_Z 6 →
     BP._old_quantity self' = 0 ∧ BP._today_quantity self' = Qc_of_Z 2).
Proof.
  intros Hfresh He rest. eexists. split; [by apply apply_trade_CLOSE|].
  fold rest. destruct (decide (rest < 0)) as [Hneg|Hpos]; simpl.
  - do 5 (split; [done|]).
    intros Ho Ht Hq. subst rest. rewrite Ho, Ht, Hq.
    by rewrite Qc_of_Z_sub, Qc_of_Z_add.
  - do 5 (split; [done|]).
    intros Ho Ht Hq. exfalso. apply Hpos.
    subst rest. rewrite Ho, Hq. by vm_compute.
Qed.

Lemma close_old_before_today_witness :
  let self := Sample.position Sample.no_split 5 3 100 ∅ in
  let trade := Sample.trade 1 SELL (Some CLOSE) 100 6 in
  BP._trades self !! exec_id trade = None ∧
  BP._get_position_effect (side trade) (position_effect trade) = Some CLOSE ∧
  ∃ self',
    BP.apply_trade self trade = Returns self' ∧
    BP._old_quantity self' = 0 ∧ BP._today_quantity self' = Qc_of_Z 2.
Proof.
  intros self trade.
  split; [reflexivity|]. split; [reflexivity|].
  destruct (close_old_before_today self trade eq_refl eq_refl)
    as (self' & Hrun & _ & _ & _ & _ & _ & Hex).
  exists self'. split; [exact Hrun|].
  exact (Hex eq_refl eq_refl eq_refl).
Defined.

(** C9.  A trade whose effect resolves to CLOSE_TODAY (it reaches the
    resolution step) takes its quantity off [today_quantity], whatever the
    sign of the result: nothing is clamped and nothing spills into
    [old_quantity]; [old_quantity], [logical_old_quantity] and [avg_price]
    are unchanged. *)
Theorem close_today_no_clamp (self : BookingPosition.t) (trade : Trade) :
  BP._trades self !! exec_id trade = None →
  BP._get_position_effect (side trade) (position_effect trade) = Some CLOSE_TODAY →
  ∃ self',
    BP.apply_trade self trade = Returns self' ∧
    BP._today_quantity self' = BP._today_quantity self - last_quantity trade ∧
    BP._old_quantity self' = BP._old_quantity self ∧
    BP._logical_old_quantity self' = BP._logical_old_quantity self ∧
    BP._avg_price self' = BP._avg_price self.
Proof.
  intros Hfresh He. eexists. split; [by apply apply_trade_CLOSE_TODAY|done].
Qed.

Lemma close_today_no_clamp_witness :
  let self := Sample.position Sample.no_split 5 3 100 ∅ in
  let trade := Sample.trade 1 SELL (Some CLOSE_TODAY) 100 6 in
  BP._trades self !! exec_id trade = None ∧
  BP._get_position_effect (side trade) (position_effect trade) = Some CLOSE_TODAY ∧
  ∃ self',
    BP.apply_trade self trade = Returns self' ∧
    BP._today_quantity self' = Qc_of_Z 3 - Qc_of_Z 6 ∧
    BP._today_quantity self' < 0 ∧
    BP._old_quantity self' = Qc_of_Z 5.
Proof.
  intros self trade.
  split; [reflexivity|]. split; [reflexivity|].
  destruct (close_today_no_clamp self trade eq_refl eq_refl)
    as (self' & Hrun & Ht & Ho & _).
  exists self'. split; [exact Hrun|]. split; [exact Ht|].
  split; [|exact Ho].
  rewrite Ht. vm_compute. reflexivity.
Defined.

(** ** Opening trades *)

Lemma Qc_minus_one_mul (x : Qc) : -1 * x = - x.
Proof. ring. Qed.

Lemma apply_trade_OPEN_average (self : BookingPosition.t) (trade : Trade) :
  BP._trades self !! exec_id trade = None →
  BP._get_position_effect (side trade) (position_effect trade) = Some OPEN →
  ¬ BP.quantity self < 0 →
  BP.quantity self + last_quantity trade ≠ 0 →
  BP.apply_trade self trade =
    Returns
      (BP.record_trade trade
         (BP.set_today_quantity (BP._today_quantity self + last_quantity trade)
            (BP.set_avg_price
               ((BP.quantity self * BP._avg_price self
                 + last_quantity trade * last_price trade)
                / (BP.quantity self + last_quantity trade))
               self))).
Proof.
  intros Hfresh He Hq Hd.
  rewrite apply_trade_OPEN_nonnegative by done. by rewrite py_div_nonzero.
Qed.

(** C2, as stated, fails on a flat position that receives an OPEN of
    quantity 0: the weighted average divides by [quantity + trade.quantity],
    which is 0, so [apply_trade] raises [ZeroDivisionError]; [avg_price]
    keeps its old value and the trade is not recorded. *)
Lemma open_zero_quantity_on_flat_position :
  let self := Sample.position Sample.no_split 0 0 100 ∅ in
  let trade := Sample.trade 1 BUY (Some OPEN) 120 0 in
  BP._trades self !! exec_id trade = None ∧
  BP._get_position_effect (side trade) (position_effect trade) = Some OPEN ∧
  ¬ BP.quantity self < 0 ∧
  BP.quantity self + last_quantity trade = 0 ∧
  BP.apply_trade self trade = Raises ZeroDivisionError self ∧
  ¬ ∃ self',
      BP.apply_trade self trade = Returns self' ∧
      BP._avg_price self' =
        (BP.quantity self * BP._avg_price self
         + last_quantity trade * last_price trade)
        / (BP.quantity self + last_quantity trade) ∧
      BP._today_quantity self' = BP._today_quantity self + last_quantity trade.
Proof.
  intros self trade.
  assert (Hq : ¬ BP.quantity self < 0) by (by vm_compute).
  assert (Hd : BP.quantity self + last_quantity trade = 0)
    by (apply Qc_is_canon; by vm_compute).
  assert (Hrun : BP.apply_trade self trade = Raises ZeroDivisionError self).
  { rewrite apply_trade_OPEN_nonnegative by done. by rewrite Hd, py_div_zero. }
  do 3 (split; [done|]). split; [done|]. split; [done|].
  intros (self' & Hret & _). rewrite Hrun in Hret. discriminate.
Qed.

(** C2, amended.  A trade whose effect resolves to OPEN (it reaches the
    resolution step) sets [avg_price] from the quantity held before the
    trade and then adds its quantity to [today_quantity].  On a negative
    quantity the new [avg_price] is 0 when the trade quantity is at most the
    absolute value of the quantity, and the trade's price otherwise.  On a
    non-negative quantity, provided [quantity + trade.quantity] is not 0,
    the new [avg_price] is the quantity-weighted average.  Opening 10 at
    price 100 and then 10 at price 200 on a flat position gives
    [avg_price = 150]. *)
Theorem open_sets_avg_price_then_quantity
    (self : BookingPosition.t) (trade : Trade) :
  BP._trades self !! exec_id trade = None →
  BP._get_position_effect (side trade) (position_effect trade) = Some OPEN →
  (BP.quantity self < 0 →
   ∃ self',
     BP.apply_trade self trade = Returns self' ∧
     BP._avg_price self' =
       (if decide (last_quantity trade ≤ - BP.quantity self)
        then 0 else last_price trade) ∧
     BP._today_quantity self' = BP._today_quantity self + last_quantity trade ∧
     BP._old_quantity self' = BP._old_quantity self) ∧
  (¬ BP.quantity self < 0 →
   BP.quantity self + last_quantity trade ≠ 0 →
   ∃ self',
     BP.apply_trade self trade = Returns self' ∧
     BP._avg_price self' =
       (BP.quantity self * BP._avg_price self
        + last_quantity trade * last_price trade)
       / (BP.quantity self + last_quantity trade) ∧
     BP._today_quantity self' = BP._today_quantity self + last_quantity trade ∧
     BP._old_quantity self' = BP._old_quantity self) ∧
  (∀ trade2 : Trade,
     BP._old_quantity self = 0 → BP._today_quantity self = 0 →
     last_quantity trade = Qc_of_Z 10 → last_price trade = Qc_of_Z 100 →
     exec_id trade2 ≠ exec_id trade →
     BP._trades self !! exec_id trade2 = None →
     BP._get_position_effect (side trade2) (position_effect trade2) = Some OPEN →
     last_quantity trade2 = Qc_of_Z 10 → last_price trade2 = Qc_of_Z 200 →
     ∃ self1 self2,
       BP.apply_trade self trade = Returns self1 ∧
       BP.apply_trade self1 trade2 = Returns self2 ∧
       BP._avg_price self1 = Qc_of_Z 100 ∧
       BP._avg_price self2 = Qc_of_Z 150 ∧
       BP.quantity self2 = Qc_of_Z 20).
Proof.
  intros Hfresh He. split; [|split].
  - intros Hneg. eexists. split; [by apply apply_trade_OPEN_negative|].
    simpl. by rewrite Qc_minus_one_mul.
  - intros Hq Hd. eexists. split; [by apply apply_trade_OPEN_average|done].
  - intros trade2 Ho Ht Hq Hp Hid Hfresh2 He2 Hq2 Hp2.
    assert (Hflat : BP.quantity self = 0).
    { unfold BP.quantity, BP.old_quantity, BP.today_quantity.
      rewrite Ho, Ht. apply Qcplus_0_l. }
    eexists. eexists. split.
    { apply apply_trade_OPEN_average; try done.
      - rewrite Hflat. by vm_compute.
      - rewrite Hflat, Hq. by vm_compute. }
    rewrite Hflat, Hq, Hp, Ht, Qcmult_0_l, !Qcplus_0_l.
    assert (Hsame : Qc_of_Z 10 * Qc_of_Z 100 / Qc_of_Z 10 = Qc_of_Z 100)
      by (apply Qc_is_canon; by vm_compute).
    rewrite Hsame. split.
    { apply apply_trade_OPEN_average; try done.
      - simpl. by rewrite lookup_insert_ne.
      - unfold BP.quantity, BP.old_quantity, BP.today_quantity. simpl.
        rewrite Ho, Qcplus_0_l. by vm_compute.
      - unfold BP.quantity, BP.old_quantity, BP.today_quantity. simpl.
        rewrite Ho, Hq2, Qcplus_0_l. by vm_compute. }
    unfold BP.quantity, BP.old_quantity, BP.today_quantity. simpl.
    rewrite Ho, Hq2, Hp2, !Qcplus_0_l.
    split; [done|]. split; apply Qc_is_canon; by vm_compute.
Qed.

Lemma open_sets_avg_price_then_quantity_witness :
  let self := Sample.position Sample.no_split 0 0 0 ∅ in
  let trade := Sample.trade 1 BUY (Some OPEN) 100 10 in
  let trade2 := Sample.trade 2 BUY None 200 10 in
  BP._trades self !! exec_id trade = None ∧
  BP._get_position_effect (side trade) (position_effect trade) = Some OPEN ∧
  ∃ self1 self2,
    BP.apply_trade self trade = Returns self1 ∧
    BP.apply_trade self1 trade2 = Returns self2 ∧
    BP._avg_price self2 = Qc_of_Z 150.
Proof.
  intros self trade trade2.
  split; [reflexivity|]. split; [reflexivity|].
  destruct (open_sets_avg_price_then_quantity self trade eq_refl eq_refl)
    as (_ & _ & Hex).
  destruct (Hex trade2 Qc_of_Z_0 Qc_of_Z_0 eq_refl eq_refl) as
    (self1 & self2 & H1 & H2 & _ & Havg & _);
    [discriminate | reflexivity | reflexivity | reflexivity | reflexivity |].
  exists self1, self2. split; [exact H1|]. split; [exact H2|exact Havg].
Defined.

(** Zero crossing on a bucket whose quantity is -10 with [avg_price] 100: an
    OPEN of 15 sets [avg_price] to the trade's price, an OPEN of exactly 10
    sets it to 0. *)
Example open_across_zero :
  let self := Sample.position Sample.no_split (-10) 0 100 ∅ in
  (∃ self', BP.apply_trade self (Sample.trade 1 BUY (Some OPEN) 120 15) = Returns self' ∧
            BP._avg_price self' = Qc_of_Z 120) ∧
  (∃ self', BP.apply_trade self (Sample.trade 1 BUY (Some OPEN) 120 10) = Returns self' ∧
            BP._avg_price self' = 0).
Proof.
  intros self.
  assert (Hneg : BP.quantity self < 0) by (by vm_compute).
  split; eexists; (split; [by apply apply_trade_OPEN_negative|]);
    unfold BP.record_trade, BP.set_trades, BP.set_today_quantity,
      BP.set_avg_price; cbn [BP._avg_price].
  - destruct (decide (_ ≤ _)) as [Hle|_]; [|done].
    exfalso. revert Hle. by vm_compute.
  - destruct (decide (_ ≤ _)) as [_|Hgt]; [done|].
    exfalso. apply Hgt. by vm_compute.
Qed.

(** ** Buckets of the ledger *)

Lemma positions_dict_set_same (d : POSITION_DIRECTION) (b : BookingPositions.t)
    (m : BookingModel.t) :
  BM._positions_dict (BM.set_positions d b m) d = b.
Proof. by destruct d. Qed.

Lemma positions_dict_set_other (d d' : POSITION_DIRECTION)
    (b : BookingPositions.t) (m : BookingModel.t) :
  d ≠ d' → BM._positions_dict (BM.set_positions d b m) d' = BM._positions_dict m d'.
Proof. by destruct d, d'. Qed.

Lemma set_positions_twice (d : POSITION_DIRECTION) (b b' : BookingPositions.t)
    (m : BookingModel.t) :
  BM.set_positions d b (BM.set_positions d b' m) = BM.set_positions d b m.
Proof. by destruct d. Qed.

Lemma set_positions_id (d : POSITION_DIRECTION) (m : BookingModel.t) :
  BM.set_positions d (BM._positions_dict m d) m = m.
Proof. by destruct d, m. Qed.

Lemma backward_trade_set_set_positions (d : POSITION_DIRECTION)
    (b : BookingPositions.t) (m : BookingModel.t) :
  BM._backward_trade_set (BM.set_positions d b m) = BM._backward_trade_set m.
Proof. by destruct d. Qed.

Lemma setitem_twice (k : string) (v v' : BookingPosition.t)
    (b : BookingPositions.t) :
  BookingPositions.setitem k v (BookingPositions.setitem k v' b)
  = BookingPositions.setitem k v b.
Proof.
  unfold BookingPositions.setitem, BookingPositions.set_items. simpl.
  by rewrite insert_insert_eq.
Qed.

Lemma setitem_present (k : string) (v : BookingPosition.t)
    (b : BookingPositions.t) :
  BookingPositions.items b !! k = Some v → BookingPositions.setitem k v b = b.
Proof.
  intros Hk. destruct b as [d dp its].
  unfold BookingPositions.setitem, BookingPositions.set_items. simpl in *.
  by rewrite insert_id.
Qed.

Lemma items_setitem (k : string) (v : BookingPosition.t)
    (b : BookingPositions.t) :
  BookingPositions.items (BookingPositions.setitem k v b)
  = <[k := v]> (BookingPositions.items b).
Proof. done. Qed.

(** [getitem] returns the stored position, or the fresh one it has just
    stored; either way the returned object is the one under [key]. *)
Lemma getitem_spec (b : BookingPositions.t) (key : string) :
  let position :=
    default (BookingPosition.init (BookingPositions._data_proxy b) key
               (BookingPositions.direction b))
            (BookingPositions.items b !! key) in
  BookingPositions.getitem b key
  = (position, BookingPositions.setitem key position b).
Proof.
  unfold BookingPositions.getitem.
  destruct (BookingPositions.items b !! key) as [p|] eqn:Hk; simpl.
  - by rewrite setitem_present.
  - unfold BookingPositions.__missing__. simpl. by rewrite lookup_insert_eq.
Qed.

Lemma get_position_spec (m : BookingModel.t) (order_book_id : string)
    (d : POSITION_DIRECTION) :
  BM.get_position m order_book_id d
  = (target_position m order_book_id d,
     with_position m order_book_id d (target_position m order_book_id d)).
Proof. unfold BM.get_position. by rewrite getitem_spec. Qed.

Lemma with_position_twice (m : BookingModel.t) (k : string)
    (d : POSITION_DIRECTION) (p p' : BookingPosition.t) :
  with_position (with_position m k d p') k d p = with_position m k d p.
Proof.
  unfold with_position.
  by rewrite positions_dict_set_same, set_positions_twice, setitem_twice.
Qed.

Lemma target_position_with_position (m : BookingModel.t) (k : string)
    (d : POSITION_DIRECTION) (p : BookingPosition.t) :
  target_position (with_position m k d p) k d = p.
Proof.
  unfold target_position, with_position.
  rewrite positions_dict_set_same, items_setitem. by rewrite lookup_insert_eq.
Qed.

Lemma backward_trade_set_with_position (m : BookingModel.t) (k : string)
    (d : POSITION_DIRECTION) (p : BookingPosition.t) :
  BM._backward_trade_set (with_position m k d p) = BM._backward_trade_set m.
Proof. apply backward_trade_set_set_positions. Qed.

(** [BookingModel.apply_trade] on a trade not seen before, in one equation. *)
Lemma ledger_apply_trade_fresh (m : BookingModel.t) (trade : Trade) :
  exec_id trade ∉ BM._backward_trade_set m →
  BM.apply_trade m trade =
    match BM.select_direction trade with
    | None => Raises RuntimeError m
    | Some d => delivered m trade d
    end.
Proof.
  intros Hfresh. unfold delivered, BM.apply_trade.
  destruct (decide (exec_id trade ∈ BM._backward_trade_set m)); [done|].
  destruct (BM.select_direction trade) as [d|]; [|done].
  rewrite get_position_spec. unfold BM.position_apply_trade.
  destruct (BP.apply_trade _ trade) as [p|e p]; simpl.
  all: change (BM.set_positions d (BookingPositions.setitem ?k p
                 (BM._positions_dict ?m' d)) ?m')
         with (with_position m' k d p).
  - rewrite with_position_twice.
    by rewrite backward_trade_set_with_position.
  - by rewrite with_position_twice.
Qed.

Lemma ledger_apply_trade_seen (m : BookingModel.t) (trade : Trade) :
  exec_id trade ∈ BM._backward_trade_set m → BM.apply_trade m trade = Returns m.
Proof.
  intros Hin. unfold BM.apply_trade.
  by destruct (decide (exec_id trade ∈ BM._backward_trade_set m)).
Qed.

(** X23.  The override [Booking.apply_trade] is the same function as
    [BookingModel.apply_trade]. *)
Lemma Booking_apply_trade_agrees (m : BookingModel.t) (trade : Trade) :
  Booking.apply_trade m trade = BM.apply_trade m trade.
Proof.
  unfold Booking.apply_trade, BM.apply_trade, BM.select_direction,
    BM.get_position, BookingPositions.get_or_create.
  destruct (decide (exec_id trade ∈ BM._backward_trade_set m)); [done|].
  destruct (position_effect trade) as [[]|], (side trade); done.
Qed.

(** ** Idempotence by execution id *)

(** A call of [BookingPosition.apply_trade] that returns has the execution
    id in [_trades]; a call that raises has changed nothing. *)
Lemma position_apply_trade_outcome (self : BookingPosition.t) (trade : Trade) :
  match BP.apply_trade self trade with
  | Returns self' => is_Some (BP._trades self' !! exec_id trade)
  | Raises _ self' => self' = self
  end.
Proof.
  unfold BP.apply_trade.
  destruct (BP._trades self !! exec_id trade) as [x|] eqn:Hk; [by rewrite Hk|].
  destruct (BP._get_position_effect _ _) as [[]|]; try done.
  - destruct (decide (BP.quantity self < 0)).
    + simpl. by rewrite lookup_insert_eq.
    + destruct (py_div _ _); [|done]. simpl. by rewrite lookup_insert_eq.
  - destruct (decide _); simpl; by rewrite lookup_insert_eq.
  - simpl. by rewrite lookup_insert_eq.
Qed.

Lemma position_apply_trade_twice (self : BookingPosition.t) (trade : Trade) :
  match BP.apply_trade self trade with
  | Returns self' => BP.apply_trade self' trade = Returns self'
  | Raises e self' => BP.apply_trade self' trade = Raises e self'
  end.
Proof.
  pose proof (position_apply_trade_outcome self trade) as H.
  destruct (BP.apply_trade self trade) as [self'|e self'] eqn:Hrun.
  - by apply apply_trade_seen.
  - by subst self'.
Qed.

Lemma ledger_apply_trade_twice (m : BookingModel.t) (trade : Trade) :
  match BM.apply_trade m trade with
  | Returns m' =>
      exec_id trade ∈ BM._backward_trade_set m' ∧ BM.apply_trade m' trade = Returns m'
  | Raises e m' =>
      BM._backward_trade_set m' = BM._backward_trade_set m ∧
      BM.apply_trade m' trade = Raises e m'
  end.
Proof.
  destruct (decide (exec_id trade ∈ BM._backward_trade_set m)) as [Hin|Hout].
  { rewrite (ledger_apply_trade_seen m trade Hin).
    split; [done|]. by apply ledger_apply_trade_seen. }
  rewrite (ledger_apply_trade_fresh m trade Hout).
  destruct (BM.select_direction trade) as [d|] eqn:Hd.
  - pose proof (position_apply_trade_outcome
                  (target_position m (order_book_id trade) d) trade) as Hp.
    unfold delivered. destruct (BP.apply_trade _ trade) as [p|e p] eqn:Hrun.
    + assert (exec_id trade ∈
                BM._backward_trade_set
                  (BM.set_backward_trade_set
                     ({[exec_id trade]} ∪ BM._backward_trade_set m)
                     (with_position m (order_book_id trade) d p)))
        by (simpl; set_solver).
      split; [done|]. by apply ledger_apply_trade_seen.
    + subst p. rewrite backward_trade_set_with_position. split; [done|].
      rewrite ledger_apply_trade_fresh
        by (by rewrite backward_trade_set_with_position).
      rewrite Hd. unfold delivered.
      rewrite target_position_with_position, Hrun.
      by rewrite with_position_twice.
  - split; [done|]. rewrite ledger_apply_trade_fresh by done. by rewrite Hd.
Qed.

(** C3.  Applying a trade a second time changes nothing, on the ledger and on
    a position alike: the state after two applications is the state after
    one.  When the first application returns, the execution id is then in
    [_backward_trade_set] (respectively in the position's [_trades]) and the
    second application returns at once; when the first raises, the second
    raises the same error from the same state. *)
Theorem apply_trade_idempotent
    (ledger : BookingModel.t) (position : BookingPosition.t) (trade : Trade) :
  (state_of (BM.apply_trade (state_of (BM.apply_trade ledger trade)) trade)
   = state_of (BM.apply_trade ledger trade)
   ∧ match BM.apply_trade ledger trade with
     | Returns ledger' =>
         exec_id trade ∈ BM._backward_trade_set ledger' ∧
         BM.apply_trade ledger' trade = Returns ledger'
     | Raises e ledger' => BM.apply_trade ledger' trade = Raises e ledger'
     end)
  ∧
  (state_of (BP.apply_trade (state_of (BP.apply_trade position trade)) trade)
   = state_of (BP.apply_trade position trade)
   ∧ match BP.apply_trade position trade with
     | Returns position' =>
         is_Some (BP._trades position' !! exec_id trade) ∧
         BP.apply_trade position' trade = Returns position'
     | Raises e position' => BP.apply_trade position' trade = Raises e position'
     end).
Proof.
  split.
  - pose proof (ledger_apply_trade_twice ledger trade) as H.
    destruct (BM.apply_trade ledger trade) as [m'|e m']; simpl.
    + destruct H as [Hin Hrun]. by rewrite Hrun.
    + destruct H as [_ Hrun]. by rewrite Hrun.
  - pose proof (position_apply_trade_twice position trade) as H.
    pose proof (position_apply_trade_outcome position trade) as Ho.
    destruct (BP.apply_trade position trade) as [p'|e p']; simpl.
    + by rewrite H.
    + by rewrite H.
Qed.

(** ** Routing of a trade to a bucket *)

Lemma items_with_position (m : BookingModel.t) (k : string)
    (d : POSITION_DIRECTION) (p : BookingPosition.t) :
  BookingPositions.items (BM._positions_dict (with_position m k d p) d)
  = <[k := p]> (BookingPositions.items (BM._positions_dict m d)).
Proof. unfold with_position. by rewrite positions_dict_set_same. Qed.

Lemma positions_dict_with_position_other (m : BookingModel.t) (k : string)
    (d d' : POSITION_DIRECTION) (p : BookingPosition.t) :
  d' ≠ d → BM._positions_dict (with_position m k d p) d' = BM._positions_dict m d'.
Proof. intros Hd. unfold with_position. by rewrite positions_dict_set_other. Qed.

Lemma delivered_state (m : BookingModel.t) (trade : Trade)
    (d d' : POSITION_DIRECTION) :
  BM._positions_dict (state_of (delivered m trade d)) d'
  = BM._positions_dict
      (with_position m (order_book_id trade) d
         (state_of (BP.apply_trade
                      (target_position m (order_book_id trade) d) trade))) d'.
Proof.
  unfold delivered. destruct (BP.apply_trade _ trade); simpl; by destruct d'.
Qed.

Lemma select_direction_routed (m : BookingModel.t) (trade : Trade)
    (d : POSITION_DIRECTION) :
  exec_id trade ∉ BM._backward_trade_set m →
  BM.select_direction trade = Some d →
  routed_to m trade d.
Proof.
  intros Hfresh Hd. unfold routed_to.
  rewrite (ledger_apply_trade_fresh m trade Hfresh), Hd.
  split; [done|]. split; [|split].
  - by rewrite delivered_state, items_with_position, lookup_insert_eq.
  - intros k' Hk. by rewrite delivered_state, items_with_position, lookup_insert_ne.
  - intros d' Hd'. by rewrite delivered_state, positions_dict_with_position_other.
Qed.

(** C7.  A trade whose execution id is not yet in [_backward_trade_set] is
    routed to one bucket only.  OPEN goes to LONG on BUY and to SHORT on
    SELL; CLOSE and CLOSE_TODAY go to SHORT on BUY and to LONG on SELL; a
    trade without position effect goes to LONG whatever its side, and the
    position there resolves the effect of BUY to OPEN and of SELL to
    CLOSE. *)
Theorem apply_trade_routes_to_one_bucket (m : BookingModel.t) (trade : Trade) :
  exec_id trade ∉ BM._backward_trade_set m →
  (position_effect trade = Some OPEN → side trade = BUY →
   routed_to m trade LONG) ∧
  (position_effect trade = Some OPEN → side trade = SELL →
   routed_to m trade SHORT) ∧
  ((position_effect trade = Some CLOSE ∨ position_effect trade = Some CLOSE_TODAY) →
   side trade = BUY → routed_to m trade SHORT) ∧
  ((position_effect trade = Some CLOSE ∨ position_effect trade = Some CLOSE_TODAY) →
   side trade = SELL → routed_to m trade LONG) ∧
  (position_effect trade = None →
   routed_to m trade LONG ∧
   (side trade = BUY →
    BP._get_position_effect (side trade) (position_effect trade) = Some OPEN) ∧
   (side trade = SELL →
    BP._get_position_effect (side trade) (position_effect trade) = Some CLOSE)).
Proof.
  intros Hfresh.
  assert (Hsel : ∀ d, BM.select_direction trade = Some d → routed_to m trade d)
    by (intros d; by apply select_direction_routed).
  unfold BM.select_direction in Hsel.
  split; [|split; [|split; [|split]]].
  - intros He Hs. apply Hsel. by rewrite He, Hs.
  - intros He Hs. apply Hsel. by rewrite He, Hs.
  - intros [He|He] Hs; apply Hsel; by rewrite He, Hs.
  - intros [He|He] Hs; apply Hsel; by rewrite He, Hs.
  - intros He. split; [apply Hsel; by rewrite He|].
    split; intros Hs; by rewrite He, Hs.
Qed.

Lemma apply_trade_routes_to_one_bucket_witness :
  let p := Sample.position Sample.no_split 5 3 100 ∅ in
  let m := Sample.ledger p ∅ in
  let sell := Sample.trade 1 SELL None 100 6 in
  let short := Sample.trade 2 SELL (Some OPEN) 100 6 in
  (exec_id sell ∉ BM._backward_trade_set m) ∧
  routed_to m sell LONG ∧
  BP._get_position_effect (side sell) (position_effect sell) = Some CLOSE ∧
  routed_to m short SHORT.
Proof.
  intros p m sell short.
  assert (Hfresh : ∀ id : Z, id ∉ BM._backward_trade_set m)
    by (intros id; apply not_elem_of_empty).
  split; [apply Hfresh|].
  destruct (apply_trade_routes_to_one_bucket m sell (Hfresh _))
    as (_ & _ & _ & _ & Hnone).
  destruct (Hnone eq_refl) as (Hlong & _ & Hclose).
  split; [exact Hlong|]. split; [exact (Hclose eq_refl)|].
  destruct (apply_trade_routes_to_one_bucket m short (Hfresh _))
    as (_ & Hshort & _).
  exact (Hshort eq_refl eq_refl).
Defined.

(** ** Malformed trades *)

(** The dedupe test comes before the validation of the side: a malformed trade
    whose execution id is already in [_backward_trade_set] is skipped, not
    rejected. *)
Lemma seen_malformed_trade_is_skipped :
  let p := Sample.position Sample.no_split 5 3 100 ∅ in
  let m := Sample.ledger p {[1%Z]} in
  let trade := Sample.trade 1 SIDE_OTHER (Some OPEN) 100 6 in
  BM.apply_trade m trade = Returns m.
Proof.
  intros p m trade. apply ledger_apply_trade_seen. simpl.
  by apply elem_of_singleton.
Qed.

(** C8.  Malformed trades are fatal and leave the affected position as it
    was.  [BookingModel.apply_trade], on a trade whose execution id is not
    yet in [_backward_trade_set], raises when the effect is OPEN, CLOSE or
    CLOSE_TODAY and the side is neither BUY nor SELL; the ledger is
    unchanged.  [BookingPosition.apply_trade], on a trade whose execution id
    is not in [_trades], raises when the resolved effect is none of OPEN,
    CLOSE, CLOSE_TODAY; the position is unchanged, so no quantity and no
    [avg_price] moves and the execution id is not in [_trades].  When the
    ledger reaches that second abort, it raises too, the position it handed
    the trade to is unchanged, every other entry of the buckets is as before
    and the execution id is not added to [_backward_trade_set].  Seen before
    or not, such a trade changes neither the ledger (unknown side) nor the
    position (unknown resolved effect). *)
Theorem malformed_trade_aborts
    (m : BookingModel.t) (self : BookingPosition.t) (trade : Trade) :
  (position_effect trade ∈ [Some OPEN; Some CLOSE; Some CLOSE_TODAY] →
   side trade ≠ BUY → side trade ≠ SELL →
   state_of (BM.apply_trade m trade) = m ∧
   (exec_id trade ∉ BM._backward_trade_set m →
    BM.apply_trade m trade = Raises RuntimeError m)) ∧
  (BP._get_position_effect (side trade) (position_effect trade) ∉
     [Some OPEN; Some CLOSE; Some CLOSE_TODAY] →
   state_of (BP.apply_trade self trade) = self ∧
   (BP._trades self !! exec_id trade = None →
    BP.apply_trade self trade = Raises RuntimeError self ∧
    BP._trades (state_of (BP.apply_trade self trade)) !! exec_id trade = None)) ∧
  (exec_id trade ∉ BM._backward_trade_set m →
   ∀ d, BM.select_direction trade = Some d →
     let k := order_book_id trade in
     let p := target_position m k d in
     BP._trades p !! exec_id trade = None →
     BP._get_position_effect (side trade) (position_effect trade) ∉
       [Some OPEN; Some CLOSE; Some CLOSE_TODAY] →
     ∃ m',
       BM.apply_trade m trade = Raises RuntimeError m' ∧
       BookingPositions.items (BM._positions_dict m' d) !! k = Some p ∧
       (∀ k', k' ≠ k →
          BookingPositions.items (BM._positions_dict m' d) !! k'
          = BookingPositions.items (BM._positions_dict m d) !! k') ∧
       (∀ d', d' ≠ d → BM._positions_dict m' d' = BM._positions_dict m d') ∧
       (exec_id trade ∉ BM._backward_trade_set m') ∧
       BM._backward_trade_set m' = BM._backward_trade_set m).
Proof.
  split; [|split].
  - intros He Hb Hs.
    assert (Hsel : BM.select_direction trade = None).
    { unfold BM.select_direction. apply known_effect in He.
      destruct (side trade); try done.
      destruct He as [He|[He|He]]; by rewrite He. }
    destruct (decide (exec_id trade ∈ BM._backward_trade_set m)) as [Hin|Hout].
    + by rewrite ledger_apply_trade_seen.
    + rewrite ledger_apply_trade_fresh, Hsel by done. by split.
  - intros He.
    destruct (BP._trades self !! exec_id trade) as [x|] eqn:Hk.
    + rewrite apply_trade_seen by (by rewrite Hk). by split.
    + rewrite (apply_trade_unknown_effect self trade Hk He). by split.
  - intros Hfresh d Hd k p Hp He.
    exists (with_position m k d p).
    rewrite ledger_apply_trade_fresh, Hd by done. unfold delivered.
    fold k p. rewrite (apply_trade_unknown_effect p trade Hp He).
    split; [done|]. split; [|split; [|split; [|split]]].
    + by rewrite items_with_position, lookup_insert_eq.
    + intros k' Hk. by rewrite items_with_position, lookup_insert_ne.
    + intros d' Hd'. by apply positions_dict_with_position_other.
    + by rewrite backward_trade_set_with_position.
    + by apply backward_trade_set_with_position.
Qed.

Lemma malformed_trade_aborts_witness :
  let p := Sample.position Sample.no_split 5 3 100 ∅ in
  let m := Sample.ledger p ∅ in
  let bad_side := Sample.trade 1 SIDE_OTHER (Some CLOSE) 100 6 in
  let no_effect := Sample.trade 2 SIDE_OTHER None 100 6 in
  BM.apply_trade m bad_side = Raises RuntimeError m ∧
  BP.apply_trade p no_effect = Raises RuntimeError p ∧
  ∃ m',
    BM.apply_trade m no_effect = Raises RuntimeError m' ∧
    BookingPositions.items (BM._positions_dict m' LONG) !! "000001.XSHE" = Some p ∧
    BM._backward_trade_set m' = ∅.
Proof.
  intros p m bad_side no_effect.
  assert (Hfresh : ∀ id : Z, id ∉ BM._backward_trade_set m)
    by (intros id; apply not_elem_of_empty).
  assert (Hnone : (None : option POSITION_EFFECT) ∉
                    [Some OPEN; Some CLOSE; Some CLOSE_TODAY])
    by (rewrite known_effect; by intros [H|[H|H]]).
  split; [|split].
  - destruct (malformed_trade_aborts m p bad_side) as (H & _ & _).
    destruct H as (_ & H); [ | discriminate | discriminate | ].
    + apply known_effect. right. by left.
    + apply H, Hfresh.
  - destruct (malformed_trade_aborts m p no_effect) as (_ & H & _).
    destruct (H Hnone) as (_ & H').
    apply H'. reflexivity.
  - destruct (malformed_trade_aborts m p no_effect) as (_ & _ & H).
    destruct (H (Hfresh _) LONG eq_refl eq_refl Hnone)
      as (m' & Hrun & Hp & _ & _ & _ & Hset).
    exists m'. split; [exact Hrun|]. split; [exact Hp|exact Hset].
Defined.

(** ** Settlement of a position *)

Section position_settlement.

Variables (self : BookingPosition.t) (trading_date : date).

Lemma settlement_logical_old_quantity :
  BP._logical_old_quantity (BP.apply_settlement self trading_date) = BP.quantity self.
Proof.
  unfold BP.apply_settlement; simpl.
  destruct (get_split_by_ex_date _ _ _) as [r|]; [destruct (decide (r = 0))|];
    by destruct (decide (type _ = "Future")).
Qed.

Lemma settlement_today_quantity :
  BP._today_quantity (BP.apply_settlement self trading_date) = 0.
Proof.
  unfold BP.apply_settlement; simpl.
  destruct (get_split_by_ex_date _ _ _) as [r|]; [destruct (decide (r = 0))|];
    by destruct (decide (type _ = "Future")).
Qed.

Lemma settlement_trades :
  BP._trades (BP.apply_settlement self trading_date) = ∅.
Proof.
  unfold BP.apply_settlement; simpl.
  destruct (get_split_by_ex_date _ _ _) as [r|]; [destruct (decide (r = 0))|];
    by destruct (decide (type _ = "Future")).
Qed.

Lemma settlement_prev_settlement_price :
  BP._prev_settlement_price (BP.apply_settlement self trading_date)
  = settlement_price self trading_date.
Proof.
  unfold BP.apply_settlement, settlement_price; simpl.
  destruct (get_split_by_ex_date _ _ _) as [r|]; [destruct (decide (r = 0))|];
    by destruct (decide (type _ = "Future")).
Qed.

Lemma settlement_old_quantity :
  BP._old_quantity (BP.apply_settlement self trading_date)
  = match split_ratio self trading_date with
    | Some r => if decide (r = 0) then BP.quantity self else BP.quantity self * r
    | None => BP.quantity self
    end.
Proof.
  unfold BP.apply_settlement, split_ratio; simpl.
  destruct (get_split_by_ex_date _ _ _) as [r|]; [destruct (decide (r = 0))|];
    by destruct (decide (type _ = "Future")).
Qed.

Lemma settlement_avg_price :
  BP._avg_price (BP.apply_settlement self trading_date)
  = match split_ratio self trading_date with
    | Some r => if decide (r = 0) then BP._avg_price self else BP._avg_price self / r
    | None => BP._avg_price self
    end.
Proof.
  unfold BP.apply_settlement, split_ratio; simpl.
  destruct (get_split_by_ex_date _ _ _) as [r|]; [destruct (decide (r = 0))|];
    by destruct (decide (type _ = "Future")).
Qed.

(** The identity of the position is not touched by settlement. *)
Lemma settlement_identity :
  BP._data_proxy (BP.apply_settlement self trading_date) = BP._data_proxy self ∧
  BP._order_book_id (BP.apply_settlement self trading_date) = BP._order_book_id self ∧
  BP._direction (BP.apply_settlement self trading_date) = BP._direction self.
Proof.
  unfold BP.apply_settlement; simpl.
  destruct (get_split_by_ex_date _ _ _) as [r|]; [destruct (decide (r = 0))|];
    by destruct (decide (type _ = "Future")).
Qed.

(** A reported ratio of 0 fails the source's test [if split_ratio:] and is
    treated like no split. *)
Lemma settlement_zero_ratio :
  split_ratio self trading_date = Some 0 →
  BP._old_quantity (BP.apply_settlement self trading_date) = BP.quantity self ∧
  BP._avg_price (BP.apply_settlement self trading_date) = BP._avg_price self.
Proof.
  intros Hs. rewrite settlement_old_quantity, settlement_avg_price, Hs.
  by destruct (decide (0 = 0)).
Qed.

End position_settlement.

(** C4.  [BookingPosition.apply_settlement] moves [today_quantity] into
    [old_quantity] (the sum is what the split step then sees, and what
    [old_quantity] is when no split applies), copies that sum into
    [logical_old_quantity], zeroes [today_quantity], empties [_trades] and
    refreshes [prev_settlement_price].  A position with [old_quantity = 0],
    [today_quantity = 7], [avg_price = 50] and no split ends with
    [old_quantity = 7], [today_quantity = 0], [logical_old_quantity = 7], no
    trades, and the refreshed price. *)
Theorem settlement_rollover (self : BookingPosition.t) (trading_date : date) :
  let self' := BP.apply_settlement self trading_date in
  let rolled := BP._old_quantity self + BP._today_quantity self in
  BP._old_quantity self' =
    match split_ratio self trading_date with
    | Some r => if decide (r = 0) then rolled else rolled * r
    | None => rolled
    end ∧
  BP._logical_old_quantity self' = rolled ∧
  BP._today_quantity self' = 0 ∧
  BP._trades self' = ∅ ∧
  BP._prev_settlement_price self' = settlement_price self trading_date ∧
  (split_ratio self trading_date = None →
   BP._old_quantity self = 0 →
   BP._today_quantity self = Qc_of_Z 7 →
   BP._avg_price self = Qc_of_Z 50 →
   BP._old_quantity self' = Qc_of_Z 7 ∧
   BP._today_quantity self' = 0 ∧
   BP._logical_old_quantity self' = Qc_of_Z 7 ∧
   BP._avg_price self' = Qc_of_Z 50 ∧
   BP._trades self' = ∅ ∧
   BP._prev_settlement_price self' = settlement_price self trading_date).
Proof.
  intros self' rolled. subst self' rolled.
  rewrite settlement_old_quantity, settlement_logical_old_quantity,
    settlement_today_quantity, settlement_trades,
    settlement_prev_settlement_price, settlement_avg_price.
  unfold BP.quantity, BP.old_quantity, BP.today_quantity.
  do 5 (split; [done|]).
  intros Hs Ho Ht Ha. rewrite Hs, Ho, Ht, Ha, Qcplus_0_l. done.
Qed.

Lemma settlement_rollover_witness :
  let self := Sample.position Sample.no_split 0 7 50 {[ 1%Z := Sample.trade 1 BUY None 50 7 ]} in
  let self' := BP.apply_settlement self 5 in
  split_ratio self 5 = None ∧
  BP._old_quantity self' = Qc_of_Z 7 ∧
  BP._today_quantity self' = 0 ∧
  BP._logical_old_quantity self' = Qc_of_Z 7 ∧
  BP._trades self' = ∅ ∧
  BP._prev_settlement_price self' = Qc_of_Z 42.
Proof.
  intros self self'.
  split; [reflexivity|].
  destruct (settlement_rollover self 5) as (_ & _ & _ & _ & _ & Hex).
  destruct (Hex eq_refl Qc_of_Z_0 eq_refl eq_refl)
    as (Ho & Ht & Hl & _ & Htr & Hp).
  split; [exact Ho|]. split; [exact Ht|]. split; [exact Hl|].
  split; [exact Htr|]. exact Hp.
Defined.

(** ** Split adjustment at settlement *)

(** C6, as stated, fails on the product: the two assignments round.  In
    binary64 a ratio of 3 on [old_quantity = 10], [avg_price = 100] gives
    [old_quantity = 30] and [avg_price = 33.333333333333336]
    ([0x1.0aaaaaaaaaaabp+5]), whose product is 1000.0000000000001
    ([0x1.f400000000001p+9]) and not the 1000 held before. *)
Lemma split_product_is_rounded :
  let old_quantity := 10%float in
  let avg_price := 100%float in
  let adjusted := split_adjustment_binary64 old_quantity avg_price 3%float in
  adjusted.1 = 30%float ∧
  adjusted.2 = 0x1.0aaaaaaaaaaabp+5%float ∧
  PrimFloat.mul adjusted.1 adjusted.2 = 0x1.f400000000001p+9%float ∧
  PrimFloat.mul old_quantity avg_price = 1000%float ∧
  PrimFloat.eqb (PrimFloat.mul adjusted.1 adjusted.2)
    (PrimFloat.mul old_quantity avg_price) = false.
Proof. vm_compute. repeat split; reflexivity. Qed.

(** C6, amended.  When the provider reports a split ratio [r] for the next
    trading date ([r] is not 0, a split ratio), settlement multiplies
    [old_quantity] (the rolled-over one) by [r] and divides [avg_price] by
    [r]; a ratio of 2 on [old_quantity = 10], [avg_price = 100] gives
    [old_quantity = 20], [avg_price = 50].  When there is no ratio the step
    changes neither. *)
Theorem settlement_split (self : BookingPosition.t) (trading_date : date) :
  let self' := BP.apply_settlement self trading_date in
  let rolled := BP._old_quantity self + BP._today_quantity self in
  (∀ r : Qc,
     split_ratio self trading_date = Some r → r ≠ 0 →
     BP._old_quantity self' = rolled * r ∧
     BP._avg_price self' = BP._avg_price self / r ∧
     (r = Qc_of_Z 2 → rolled = Qc_of_Z 10 → BP._avg_price self = Qc_of_Z 100 →
      BP._old_quantity self' = Qc_of_Z 20 ∧ BP._avg_price self' = Qc_of_Z 50)) ∧
  (split_ratio self trading_date = None →
   BP._old_quantity self' = rolled ∧ BP._avg_price self' = BP._avg_price self).
Proof.
  intros self' rolled. subst self'.
  rewrite settlement_old_quantity, settlement_avg_price.
  unfold BP.quantity, BP.old_quantity, BP.today_quantity. fold rolled.
  split.
  - intros r Hs Hr. rewrite Hs. destruct (decide (r = 0)); [done|].
    split; [done|]. split; [done|].
    intros -> -> ->. split; apply Qc_is_canon; by vm_compute.
  - by intros ->.
Qed.

Lemma settlement_split_witness :
  let self := Sample.position (Sample.split_by (Qc_of_Z 2)) 10 0 100 ∅ in
  let self' := BP.apply_settlement self 5 in
  split_ratio self 5 = Some (Qc_of_Z 2) ∧ Qc_of_Z 2 ≠ 0 ∧
  BP._old_quantity self' = Qc_of_Z 20 ∧ BP._avg_price self' = Qc_of_Z 50 ∧
  let flat := Sample.position Sample.no_split 10 0 100 ∅ in
  split_ratio flat 5 = None ∧
  BP._old_quantity (BP.apply_settlement flat 5) = Qc_of_Z 10 + Qc_of_Z 0 ∧
  BP._avg_price (BP.apply_settlement flat 5) = Qc_of_Z 100.
Proof.
  intros self self'.
  assert (Hr : Qc_of_Z 2 ≠ 0) by discriminate.
  split; [reflexivity|]. split; [exact Hr|].
  destruct (settlement_split self 5) as (Hsplit & _).
  destruct (Hsplit (Qc_of_Z 2) eq_refl Hr) as (_ & _ & Hex).
  assert (Hrolled : BP._old_quantity self + BP._today_quantity self = Qc_of_Z 10)
    by (apply Qc_is_canon; vm_compute; reflexivity).
  destruct (Hex eq_refl Hrolled eq_refl) as (Ho & Ha).
  split; [exact Ho|]. split; [exact Ha|].
  intros flat. split; [reflexivity|].
  destruct (settlement_split flat 5) as (_ & Hnone).
  exact (Hnone eq_refl).
Defined.

(** ** The PnL baseline under a split *)

(** C10, as stated, fails on a flat position: with quantity 0 and a split
    ratio 2 (which is not 1) settlement leaves both [logical_old_quantity]
    and [old_quantity] at 0, so they are equal. *)
Lemma split_on_flat_position_keeps_baseline :
  let self := Sample.position (Sample.split_by (Qc_of_Z 2)) 0 0 100 ∅ in
  let self' := BP.apply_settlement self 5 in
  split_ratio self 5 = Some (Qc_of_Z 2) ∧
  Qc_of_Z 2 ≠ 0 ∧ Qc_of_Z 2 ≠ 1 ∧
  BP._logical_old_quantity self' = BP._old_quantity self + BP._today_quantity self ∧
  BP._old_quantity self'
    = (BP._old_quantity self + BP._today_quantity self) * Qc_of_Z 2 ∧
  ¬ BP._logical_old_quantity self' ≠ BP._old_quantity self'.
Proof.
  intros self self'. subst self'.
  rewrite settlement_logical_old_quantity, settlement_old_quantity.
  unfold BP.quantity, BP.old_quantity, BP.today_quantity.
  split; [reflexivity|]. split; [discriminate|]. split; [discriminate|].
  split; [done|].
  assert (Hs : split_ratio self 5 = Some (Qc_of_Z 2)) by reflexivity.
  rewrite Hs. destruct (decide (Qc_of_Z 2 = 0)); [discriminate|].
  split; [done|].
  intros Hne. apply Hne. apply Qc_is_canon. by vm_compute.
Qed.

(** C10, amended.  The split adjustment does not rebase the PnL baseline: when
    the quantity before settlement is [q] and settlement finds a split ratio
    [r] (not 0), afterwards [logical_old_quantity = q] and
    [old_quantity = q * r]; the two differ exactly when [r] is not 1 and [q]
    is not 0. *)
Theorem split_does_not_rebase_baseline
    (self : BookingPosition.t) (trading_date : date) (q r : Qc) :
  BP._old_quantity self + BP._today_quantity self = q →
  split_ratio self trading_date = Some r →
  r ≠ 0 →
  let self' := BP.apply_settlement self trading_date in
  BP._logical_old_quantity self' = q ∧
  BP._old_quantity self' = q * r ∧
  (r ≠ 1 → q ≠ 0 → BP._logical_old_quantity self' ≠ BP._old_quantity self') ∧
  (BP._logical_old_quantity self' ≠ BP._old_quantity self' → r ≠ 1 ∧ q ≠ 0).
Proof.
  intros Hq Hs Hr self'. subst self'.
  rewrite settlement_logical_old_quantity, settlement_old_quantity, Hs.
  unfold BP.quantity, BP.old_quantity, BP.today_quantity. rewrite Hq.
  destruct (decide (r = 0)); [done|].
  split; [done|]. split; [done|]. split.
  - intros Hr1 Hq0 Heq. apply Hr1.
    transitivity (q * r / q); [by field|].
    rewrite <- Heq. by field.
  - intros Hne. split.
    + intros ->. apply Hne. by rewrite Qcmult_1_r.
    + intros ->. apply Hne. by rewrite Qcmult_0_l.
Qed.

Lemma split_does_not_rebase_baseline_witness :
  let self := Sample.position (Sample.split_by (Qc_of_Z 2)) 10 0 100 ∅ in
  let self' := BP.apply_settlement self 5 in
  BP._old_quantity self + BP._today_quantity self = Qc_of_Z 10 ∧
  split_ratio self 5 = Some (Qc_of_Z 2) ∧
  Qc_of_Z 2 ≠ 0 ∧
  BP._logical_old_quantity self' = Qc_of_Z 10 ∧
  BP._old_quantity self' = Qc_of_Z 10 * Qc_of_Z 2 ∧
  BP._logical_old_quantity self' ≠ BP._old_quantity self'.
Proof.
  intros self self'.
  assert (Hq : BP._old_quantity self + BP._today_quantity self = Qc_of_Z 10)
    by (apply Qc_is_canon; vm_compute; reflexivity).
  assert (Hr : Qc_of_Z 2 ≠ 0) by discriminate.
  split; [exact Hq|]. split; [reflexivity|]. split; [exact Hr|].
  destruct (split_does_not_rebase_baseline self 5 (Qc_of_Z 10) (Qc_of_Z 2)
              Hq eq_refl Hr) as (Hl & Ho & Hne & _).
  split; [exact Hl|]. split; [exact Ho|].
  apply Hne; discriminate.
Defined.

(** ** Settlement of the ledger *)

Section ledger_settlement.

Variables (DEFAULT_DE_LISTED_DATE : datetime) (trading_date : date).

(** The inner loop, by induction on the entries visited: the delete list
    gains, once each, the keys of the marked entries; the bucket holds the
    settled position under every other visited key and is untouched
    elsewhere. *)
Lemma scan_fold (d : POSITION_DIRECTION) (b0 : BookingPositions.t)
    (dl0 : list (string * POSITION_DIRECTION)) (m : gmap string BookingPosition.t) :
  let r := map_fold (BM.scan_step DEFAULT_DE_LISTED_DATE trading_date d) (dl0, b0) m in
  ∃ dl',
    r.1 = dl0 ++ dl' ∧
    NoDup dl' ∧
    (∀ k d', (k, d') ∈ dl' ↔
       d' = d ∧ ∃ p, m !! k = Some p ∧
                     BM.to_delete DEFAULT_DE_LISTED_DATE trading_date p = true) ∧
    BookingPositions.direction r.2 = BookingPositions.direction b0 ∧
    BookingPositions._data_proxy r.2 = BookingPositions._data_proxy b0 ∧
    ∀ k, BookingPositions.items r.2 !! k =
           match m !! k with
           | Some p =>
               if BM.to_delete DEFAULT_DE_LISTED_DATE trading_date p
               then BookingPositions.items b0 !! k
               else Some (BP.apply_settlement p trading_date)
           | None => BookingPositions.items b0 !! k
           end.
Proof.
  cbv zeta.
  apply (map_fold_weak_ind
           (λ r m, ∃ dl',
              r.1 = dl0 ++ dl' ∧ NoDup dl' ∧
              (∀ k d', (k, d') ∈ dl' ↔
                 d' = d ∧ ∃ p, m !! k = Some p ∧
                   BM.to_delete DEFAULT_DE_LISTED_DATE trading_date p = true) ∧
              BookingPositions.direction r.2 = BookingPositions.direction b0 ∧
              BookingPositions._data_proxy r.2 = BookingPositions._data_proxy b0 ∧
              ∀ k, BookingPositions.items r.2 !! k =
                     match m !! k with
                     | Some p =>
                         if BM.to_delete DEFAULT_DE_LISTED_DATE trading_date p
                         then BookingPositions.items b0 !! k
                         else Some (BP.apply_settlement p trading_date)
                     | None => BookingPositions.items b0 !! k
                     end)).
  - exists []. simpl. rewrite app_nil_r.
    split; [done|]. split; [apply NoDup_nil_2|]. split.
    + intros k d'. rewrite elem_of_nil. split; [done|].
      intros (_ & p & Hp & _). by rewrite lookup_empty in Hp.
    + split; [done|]. split; [done|]. intros k. by rewrite lookup_empty.
  - intros i x m' r Hi (dl' & Hdl & Hnd & Hin & Hdir & Hdp & Hitems).
    assert (Hnotin : (i, d) ∉ dl').
    { intros Hx. apply Hin in Hx as (_ & p & Hp & _). by rewrite Hi in Hp. }
    unfold BM.scan_step.
    destruct (BM.to_delete DEFAULT_DE_LISTED_DATE trading_date x) eqn:Hx; simpl.
    + exists (dl' ++ [(i, d)]).
      split; [by rewrite Hdl, app_assoc|].
      split.
      { apply list.NoDup_app. split; [done|]. split; [|apply NoDup_singleton].
        intros y Hy Hy'. apply list_elem_of_singleton in Hy'. by subst y. }
      split.
      { intros k d'. rewrite elem_of_app, list_elem_of_singleton, Hin.
        destruct (decide (k = i)) as [->|Hk].
        - rewrite lookup_insert_eq. split.
          + intros [(-> & p & Hp & _)|Heq]; [by rewrite Hi in Hp|].
            injection Heq as ->. split; [done|]. by exists x.
          + intros [-> _]. by right.
        - rewrite lookup_insert_ne by done. split.
          + intros [H|Heq]; [done|]. by injection Heq as -> ->.
          + intros H. by left. }
      split; [done|]. split; [done|].
      intros k. rewrite Hitems. destruct (decide (k = i)) as [->|Hk].
      * by rewrite lookup_insert_eq, Hi, Hx.
      * by rewrite lookup_insert_ne.
    + exists dl'. split; [done|]. split; [done|]. split.
      { intros k d'. rewrite Hin. destruct (decide (k = i)) as [->|Hk].
        - rewrite lookup_insert_eq, Hi. split.
          + by intros (_ & p & Hp & _).
          + intros (_ & p & Hp & Hdel). injection Hp as <-. congruence.
        - by rewrite lookup_insert_ne. }
      split; [done|]. split; [done|].
      intros k. destruct (decide (k = i)) as [->|Hk].
      * by rewrite !lookup_insert_eq, Hx.
      * rewrite !lookup_insert_ne by done. apply Hitems.
Qed.

Lemma scan_bucket_spec (d : POSITION_DIRECTION) (b : BookingPositions.t)
    (dl0 : list (string * POSITION_DIRECTION)) :
  let r := BM.scan_bucket DEFAULT_DE_LISTED_DATE trading_date d b dl0 in
  ∃ dl',
    r.1 = dl0 ++ dl' ∧
    NoDup dl' ∧
    (∀ k d', (k, d') ∈ dl' ↔
       d' = d ∧ ∃ p, BookingPositions.items b !! k = Some p ∧
                     BM.to_delete DEFAULT_DE_LISTED_DATE trading_date p = true) ∧
    ∀ k, BookingPositions.items r.2 !! k =
           scanned_entry DEFAULT_DE_LISTED_DATE trading_date
             <$> BookingPositions.items b !! k.
Proof.
  cbv zeta. unfold BM.scan_bucket.
  destruct (scan_fold d b dl0 (BookingPositions.items b))
    as (dl' & Hdl & Hnd & Hin & _ & _ & Hitems).
  exists dl'. split; [done|]. split; [done|]. split; [done|].
  intros k. rewrite Hitems. unfold scanned_entry, BM.to_delete.
  destruct (BookingPositions.items b !! k) as [p|] eqn:Hk; [|done]. simpl.
  by destruct (_ || _).
Qed.

(** The first loop of the ledger's settlement: the delete list names, once
    each, the entries that are delisted or flat; these are untouched, every
    other position is settled. *)
Lemma scan_spec (m : BookingModel.t) :
  let r := BM.scan DEFAULT_DE_LISTED_DATE m trading_date in
  NoDup r.1 ∧
  (∀ k d, (k, d) ∈ r.1 ↔
     ∃ p, BookingPositions.items (BM._positions_dict m d) !! k = Some p ∧
          BM.to_delete DEFAULT_DE_LISTED_DATE trading_date p = true) ∧
  BM._backward_trade_set r.2 = BM._backward_trade_set m ∧
  ∀ d k, BookingPositions.items (BM._positions_dict r.2 d) !! k =
           scanned_entry DEFAULT_DE_LISTED_DATE trading_date
             <$> BookingPositions.items (BM._positions_dict m d) !! k.
Proof.
  cbv zeta. unfold BM.scan.
  destruct (scan_bucket_spec LONG (BM._positions_dict m LONG) [])
    as (dl1 & Hdl1 & Hnd1 & Hin1 & Hitems1).
  destruct (BM.scan_bucket _ _ LONG _ []) as [dla long] eqn:Hlong.
  simpl in Hdl1, Hitems1. subst dla.
  destruct (scan_bucket_spec SHORT
              (BM._positions_dict (BM.set_positions LONG long m) SHORT) dl1)
    as (dl2 & Hdl2 & Hnd2 & Hin2 & Hitems2).
  destruct (BM.scan_bucket _ _ SHORT _ dl1) as [dlb short] eqn:Hshort.
  simpl in Hdl2, Hitems2. subst dlb. simpl.
  split; [|split; [|split]].
  - apply list.NoDup_app. split; [done|]. split; [|done].
    intros [k d] H1 H2. apply Hin1 in H1 as [-> _]. by apply Hin2 in H2 as [? _].
  - intros k d. rewrite elem_of_app, Hin1, Hin2. destruct d; simpl; split.
    + intros [[_ H]|[? _]]; done.
    + intros H. by left.
    + intros [[? _]|[_ H]]; done.
    + intros H. by right.
  - done.
  - intros [] k; simpl; [apply Hitems1|apply Hitems2].
Qed.

(** The second loop: every listed key is present when its turn comes, so no
    [pop] raises, and exactly the listed entries are gone. *)
Lemma pop_all_spec (dl : list (string * POSITION_DIRECTION)) (m : BookingModel.t) :
  NoDup dl →
  (∀ k d, (k, d) ∈ dl →
     is_Some (BookingPositions.items (BM._positions_dict m d) !! k)) →
  ∃ m',
    BM.pop_all dl m = Returns m' ∧
    BM._backward_trade_set m' = BM._backward_trade_set m ∧
    ∀ d k, BookingPositions.items (BM._positions_dict m' d) !! k =
             if decide ((k, d) ∈ dl) then None
             else BookingPositions.items (BM._positions_dict m d) !! k.
Proof.
  revert m. induction dl as [|[k0 d0] dl IH]; intros m Hnd Hpresent.
  - exists m. split; [done|]. split; [done|]. intros d k.
    destruct (decide ((k, d) ∈ [])) as [H|_]; [by apply elem_of_nil in H|done].
  - apply list.NoDup_cons in Hnd as [Hnotin Hnd].
    destruct (Hpresent k0 d0) as [p0 Hp0]; [by left|].
    simpl. unfold BookingPositions.pop. rewrite Hp0.
    set (m1 := BM.set_positions d0 _ m).
    assert (Hm1 : ∀ d k,
              BookingPositions.items (BM._positions_dict m1 d) !! k =
                if decide ((k, d) = (k0, d0)) then None
                else BookingPositions.items (BM._positions_dict m d) !! k).
    { intros d k. subst m1. destruct (decide ((k, d) = (k0, d0))) as [Heq|Hne].
      - injection Heq as -> ->. rewrite positions_dict_set_same. simpl.
        apply lookup_delete_eq.
      - destruct (decide (d = d0)) as [->|Hd].
        + rewrite positions_dict_set_same. simpl.
          apply lookup_delete_ne. congruence.
        + by rewrite positions_dict_set_other. }
    destruct (IH m1 Hnd) as (m' & Hrun & Hset & Hitems).
    { intros k d Hin. rewrite Hm1.
      destruct (decide ((k, d) = (k0, d0))) as [Heq|Hne].
      - rewrite Heq in Hin. done.
      - apply Hpresent. by right. }
    exists m'. split; [done|]. split.
    { rewrite Hset. subst m1. apply backward_trade_set_set_positions. }
    intros d k. rewrite Hitems, Hm1.
    destruct (decide ((k, d) = (k0, d0))) as [Heq|Hne].
    + rewrite Heq. destruct (decide ((k0, d0) ∈ dl)); [done|].
      destruct (decide ((k0, d0) ∈ (k0, d0) :: dl)) as [|Hn]; [done|].
      exfalso. apply Hn. by left.
    + destruct (decide ((k, d) ∈ dl)) as [Hin|Hout].
      * destruct (decide ((k, d) ∈ (k0, d0) :: dl)) as [|Hn]; [done|].
        exfalso. apply Hn. by right.
      * destruct (decide ((k, d) ∈ (k0, d0) :: dl)) as [Hin|]; [|done].
        apply elem_of_cons in Hin as [?|?]; done.
Qed.

(** [BookingModel.apply_settlement] always returns, and what it leaves under
    each key is [settled_entry] of what was there. *)
Lemma ledger_apply_settlement_spec (m : BookingModel.t) :
  ∃ m',
    BM.apply_settlement DEFAULT_DE_LISTED_DATE m trading_date = Returns m' ∧
    BM._backward_trade_set m' = BM._backward_trade_set m ∧
    ∀ d k, BookingPositions.items (BM._positions_dict m' d) !! k =
             BookingPositions.items (BM._positions_dict m d) !! k
             ≫= settled_entry DEFAULT_DE_LISTED_DATE trading_date.
Proof.
  unfold BM.apply_settlement.
  destruct (scan_spec m) as (Hnd & Hin & Hset & Hitems).
  destruct (BM.scan _ m trading_date) as [dl m1]. simpl in *.
  destruct (pop_all_spec dl m1 Hnd) as (m' & Hrun & Hset' & Hitems').
  { intros k d Hk. apply Hin in Hk as (p & Hp & _). rewrite Hitems, Hp. by eexists. }
  exists m'. split; [done|]. split; [congruence|].
  intros d k. rewrite Hitems', Hitems.
  destruct (BookingPositions.items (BM._positions_dict m d) !! k) as [p|] eqn:Hp;
    simpl.
  - unfold settled_entry, scanned_entry.
    destruct (decide ((k, d) ∈ dl)) as [Hk|Hk].
    + apply Hin in Hk as (p' & Hp' & Hdel). rewrite Hp in Hp'. injection Hp' as <-.
      unfold BM.to_delete in Hdel. by rewrite Hdel.
    + destruct (_ || _) eqn:Hdel; [|done].
      exfalso. apply Hk. apply Hin. by exists p.
  - by destruct (decide _).
Qed.

End ledger_settlement.

(** C5.  The ledger's [apply_settlement] returns.  A position that, before
    the call, is delisted as of [trading_date] or has quantity 0 is put on
    the delete list by the scan, is not settled (the scan leaves it as it
    was) and is absent afterwards; every other position is settled by
    [BookingPosition.apply_settlement] and stays under its key; no entry
    appears that was not there. *)
Theorem ledger_settlement_evicts
    (DEFAULT_DE_LISTED_DATE : datetime) (m : BookingModel.t) (trading_date : date) :
  let scanned := BM.scan DEFAULT_DE_LISTED_DATE m trading_date in
  ∃ m',
    BM.apply_settlement DEFAULT_DE_LISTED_DATE m trading_date = Returns m' ∧
    (∀ d k p,
       BookingPositions.items (BM._positions_dict m d) !! k = Some p →
       ((BP.is_de_listed DEFAULT_DE_LISTED_DATE p trading_date = true
         ∨ BP.quantity p = 0) →
        (k, d) ∈ scanned.1 ∧
        BookingPositions.items (BM._positions_dict scanned.2 d) !! k = Some p ∧
        BookingPositions.items (BM._positions_dict m' d) !! k = None) ∧
       (BP.is_de_listed DEFAULT_DE_LISTED_DATE p trading_date = false →
        BP.quantity p ≠ 0 →
        ((k, d) ∉ scanned.1) ∧
        BookingPositions.items (BM._positions_dict scanned.2 d) !! k
          = Some (BP.apply_settlement p trading_date) ∧
        BookingPositions.items (BM._positions_dict m' d) !! k
          = Some (BP.apply_settlement p trading_date))) ∧
    (∀ d k,
       BookingPositions.items (BM._positions_dict m d) !! k = None →
       BookingPositions.items (BM._positions_dict m' d) !! k = None) ∧
    BM._backward_trade_set m' = BM._backward_trade_set m.
Proof.
  intros scanned.
  destruct (ledger_apply_settlement_spec DEFAULT_DE_LISTED_DATE trading_date m)
    as (m' & Hrun & Hset & Hitems).
  destruct (scan_spec DEFAULT_DE_LISTED_DATE trading_date m)
    as (_ & Hin & _ & Hscan).
  fold scanned in Hin, Hscan.
  exists m'. split; [done|]. split; [|split; [|done]].
  - intros d k p Hp. split.
    + intros Hdel.
      assert (Hmark : BP.is_de_listed DEFAULT_DE_LISTED_DATE p trading_date
                      || bool_decide (BP.quantity p = 0) = true).
      { destruct Hdel as [->|Hq]; [done|].
        rewrite (bool_decide_eq_true_2 _ Hq). apply orb_true_r. }
      split; [apply Hin; by exists p|].
      rewrite Hscan, Hitems, Hp. simpl.
      unfold scanned_entry, settled_entry. by rewrite Hmark.
    + intros Hlisted Hq.
      assert (Hmark : BP.is_de_listed DEFAULT_DE_LISTED_DATE p trading_date
                      || bool_decide (BP.quantity p = 0) = false).
      { rewrite Hlisted. simpl. by apply bool_decide_eq_false_2. }
      split.
      { intros Hk. apply Hin in Hk as (p' & Hp' & Hdel).
        rewrite Hp in Hp'. injection Hp' as <-.
        unfold BM.to_delete in Hdel. congruence. }
      rewrite Hscan, Hitems, Hp. simpl.
      unfold scanned_entry, settled_entry. by rewrite Hmark.
  - intros d k Hnone. by rewrite Hitems, Hnone.
Qed.

Lemma ledger_settlement_evicts_witness :
  ∃ m',
    BM.apply_settlement Sample.sentinel Sample.book 12 = Returns m' ∧
    BookingPositions.items (BM._positions_dict m' LONG) !! "000002.XSHE" = None ∧
    BookingPositions.items (BM._positions_dict m' SHORT) !! "IF1906" = None ∧
    BookingPositions.items (BM._positions_dict m' LONG) !! "000001.XSHE"
      = Some (BP.apply_settlement Sample.live 12).
Proof.
  destruct (ledger_settlement_evicts Sample.sentinel Sample.book 12)
    as (m' & Hrun & Hpos & _ & _).
  exists m'. split; [exact Hrun|].
  split; [|split].
  - destruct (Hpos LONG "000002.XSHE" Sample.flat eq_refl) as (Hflat & _).
    apply Hflat. right. apply Qc_is_canon. reflexivity.
  - destruct (Hpos SHORT "IF1906" Sample.expired eq_refl) as (Hexp & _).
    apply Hexp. left. reflexivity.
  - destruct (Hpos LONG "000001.XSHE" Sample.live eq_refl) as (_ & Hlive).
    apply Hlive; [reflexivity | discriminate].
Defined.

(** * Further properties of the booking model *)

(** ** What a trade does to a position, whatever its branch *)

(** The untouched attributes: a trade, booked or rejected, changes neither
    the PnL baseline ([_logical_old_quantity], [_prev_settlement_price]) nor
    the identity of the position. *)
Lemma apply_trade_frame (self : BookingPosition.t) (trade : Trade) :
  let self' := state_of (BP.apply_trade self trade) in
  BP._logical_old_quantity self' = BP._logical_old_quantity self ∧
  BP._prev_settlement_price self' = BP._prev_settlement_price self ∧
  BP._order_book_id self' = BP._order_book_id self ∧
  BP._direction self' = BP._direction self ∧
  BP._data_proxy self' = BP._data_proxy self.
Proof.
  cbv zeta. unfold BP.apply_trade.
  destruct (BP._trades self !! exec_id trade); [done|].
  destruct (BP._get_position_effect _ _) as [[]|]; try done.
  - destruct (decide (BP.quantity self < 0)).
    + by destruct (decide (last_quantity trade ≤ -1 * BP.quantity self)).
    + by destruct (py_div _ _).
  - by destruct (decide (BP._old_quantity _ < 0)).
Qed.







Lemma apply_trade_cache_other (self : BookingPosition.t) (trade : Trade) (id : Z) :
  id ≠ exec_id trade →
  BP._trades (state_of (BP.apply_trade self trade)) !! id = BP._trades self !! id.
Proof.
  intros Hid. unfold BP.apply_trade.
  destruct (BP._trades self !! exec_id trade); [done|].
  destruct (BP._get_position_effect _ _) as [[]|]; try done.
  - destruct (decide (BP.quantity self < 0)).
    + destruct (decide (last_quantity trade ≤ -1 * BP.quantity self));
        simpl; by rewrite lookup_insert_ne.
    + destruct (py_div _ _); [|done]. simpl. by rewrite lookup_insert_ne.
  - destruct (decide (BP._old_quantity _ < 0)); simpl; by rewrite lookup_insert_ne.
  - simpl. by rewrite lookup_insert_ne.
Qed.

Lemma apply_trade_cache_new (self s : BookingPosition.t) (trade : Trade) :
  BP.apply_trade self trade = Returns s →
  BP._trades s !! exec_id trade
  = Some (default trade (BP._trades self !! exec_id trade)).
Proof.
  intros Hrun.
  destruct (BP._trades self !! exec_id trade) as [t|] eqn:Hk.
  - rewrite apply_trade_seen in Hrun by (by rewrite Hk). by injection Hrun as <-.
  - revert Hrun. unfold BP.apply_trade. rewrite Hk.
    destruct (BP._get_position_effect _ _) as [[]|]; try done.
    + destruct (decide (BP.quantity self < 0)).
      * intros [= <-]. simpl. by rewrite lookup_insert_eq.
      * destruct (py_div _ _); [|done]. intros [= <-]. simpl.
        by rewrite lookup_insert_eq.
    + destruct (decide (BP._old_quantity _ < 0)); intros [= <-]; simpl;
        by rewrite lookup_insert_eq.
    + intros [= <-]. simpl. by rewrite lookup_insert_eq.
Qed.

(** X3.  The trade cache only grows, and the first trade booked under an
    execution id is the one that stays: entries already cached are kept as
    they are, other ids are untouched, and after a call that returns the
    trade's id maps to the cached trade if there was one, to the trade
    itself otherwise. *)
Theorem apply_trade_cache (self : BookingPosition.t) (trade : Trade) :
  let self' := state_of (BP.apply_trade self trade) in
  (∀ id t, BP._trades self !! id = Some t → BP._trades self' !! id = Some t) ∧
  (∀ id, id ≠ exec_id trade → BP._trades self' !! id = BP._trades self !! id) ∧
  (∀ s, BP.apply_trade self trade = Returns s →
        BP._trades s !! exec_id trade
        = Some (default trade (BP._trades self !! exec_id trade))).
Proof.
  cbv zeta. split; [|split].
  - intros id t Ht. destruct (decide (id = exec_id trade)) as [->|Hid].
    + by rewrite apply_trade_seen by (by rewrite Ht).
    + by rewrite apply_trade_cache_other.
  - intros id Hid. by apply apply_trade_cache_other.
  - intros s Hrun. by apply apply_trade_cache_new.
Qed.

(** ** When a position rejects a trade *)

Lemma apply_trade_raise_kind (self s : BookingPosition.t) (trade : Trade)
    (e : exn) :
  BP.apply_trade self trade = Raises e s →
  s = self ∧ (e = RuntimeError ∨ e = ZeroDivisionError).
Proof.
  unfold BP.apply_trade.
  destruct (BP._trades self !! exec_id trade); [done|].
  destruct (BP._get_position_effect _ _) as [[]|];
    try (intros [= <- <-]; by auto).
  - destruct (decide (BP.quantity self < 0)); [done|].
    destruct (py_div _ _); [done|]. intros [= <- <-]. auto.
  - by destruct (decide (BP._old_quantity _ < 0)).
Qed.

(** X4.  The errors of [BookingPosition.apply_trade], exactly.  It raises
    [RuntimeError] precisely on a trade not cached yet whose resolved effect
    is none of OPEN, CLOSE, CLOSE_TODAY, and [ZeroDivisionError] precisely
    on a trade not cached yet that opens on a non-negative quantity which it
    brings to 0; a call that raises leaves the position as it was.  A trade
    of positive quantity with a recognised effect is always booked when the
    quantity held is not negative. *)
Theorem apply_trade_errors (self : BookingPosition.t) (trade : Trade) :
  let resolved := BP._get_position_effect (side trade) (position_effect trade) in
  (BP.apply_trade self trade = Raises RuntimeError self ↔
     BP._trades self !! exec_id trade = None ∧
     resolved ∉ [Some OPEN; Some CLOSE; Some CLOSE_TODAY]) ∧
  (BP.apply_trade self trade = Raises ZeroDivisionError self ↔
     BP._trades self !! exec_id trade = None ∧ resolved = Some OPEN ∧
     ¬ BP.quantity self < 0 ∧ BP.quantity self + last_quantity trade = 0) ∧
  (∀ e s, BP.apply_trade self trade = Raises e s →
     s = self ∧ (e = RuntimeError ∨ e = ZeroDivisionError)) ∧
  (resolved ∈ [Some OPEN; Some CLOSE; Some CLOSE_TODAY] →
   0 < last_quantity trade → 0 ≤ BP.quantity self →
   ∃ s, BP.apply_trade self trade = Returns s).
Proof.
  cbv zeta. rewrite known_effect.
  destruct (BP._trades self !! exec_id trade) as [t|] eqn:Hk.
  { rewrite apply_trade_seen by (by rewrite Hk).
    split; [split; [done|by intros [? _]]|].
    split; [split; [done|by intros [? _]]|].
    split; [done|]. intros _ _ _. by eexists. }
  destruct (BP._get_position_effect (side trade) (position_effect trade))
    as [e|] eqn:He.
  - destruct e.
    + destruct (decide (BP.quantity self < 0)) as [Hneg|Hpos].
      * rewrite apply_trade_OPEN_negative by done.
        split; [split; [done|intros [_ H]; exfalso; apply H; auto]|].
        split; [split; [done|by intros (_ & _ & ? & _)]|].
        split; [done|]. intros _ _ _. by eexists.
      * rewrite apply_trade_OPEN_nonnegative by done. unfold py_div.
        destruct (decide (BP.quantity self + last_quantity trade = 0)) as [Hz|Hnz].
        -- split; [split; [done|intros [_ H]; exfalso; apply H; auto]|].
           split; [done|]. split; [intros e s [= <- <-]; auto|].
           intros _ Hq Hs. exfalso.
           apply (Qclt_not_eq 0 (BP.quantity self + last_quantity trade));
             [by apply Qcplus_nonneg_pos|done].
        -- split; [split; [done|intros [_ H]; exfalso; apply H; auto]|].
           split; [split; [done|by intros (_ & _ & _ & ?)]|].
           split; [done|]. intros _ _ _. by eexists.
    + rewrite apply_trade_CLOSE by done.
      split; [split; [done|intros [_ H]; exfalso; apply H; auto]|].
      split; [split; [done|by intros (_ & ? & _)]|].
      split; [done|]. intros _ _ _. by eexists.
    + rewrite apply_trade_CLOSE_TODAY by done.
      split; [split; [done|intros [_ H]; exfalso; apply H; auto]|].
      split; [split; [done|by intros (_ & ? & _)]|].
      split; [done|]. intros _ _ _. by eexists.
    + rewrite apply_trade_unknown_effect;
        [|done|rewrite He, known_effect; by intros [|[|]]].
      split; [split; [intros _; split; [done|by intros [|[|]]]|done]|].
      split; [split; [done|by intros (_ & ? & _)]|].
      split; [intros e s [= <- <-]; auto|]. by intros [|[|]].
  - rewrite apply_trade_unknown_effect;
      [|done|rewrite He, known_effect; by intros [|[|]]].
    split; [split; [intros _; split; [done|by intros [|[|]]]|done]|].
    split; [split; [done|by intros (_ & ? & _)]|].
    split; [intros e s [= <- <-]; auto|]. by intros [|[|]].
Qed.

Lemma apply_trade_errors_witness :
  let self := Sample.position Sample.no_split 5 3 100 ∅ in
  let trade := Sample.trade 1 BUY None 100 6 in
  0 < last_quantity trade ∧ 0 ≤ BP.quantity self ∧
  ∃ s, BP.apply_trade self trade = Returns s.
Proof.
  intros self trade.
  assert (Hq : 0 < last_quantity trade) by (vm_compute; reflexivity).
  assert (Hs : 0 ≤ BP.quantity self) by (vm_compute; discriminate).
  split; [exact Hq|]. split; [exact Hs|].
  destruct (apply_trade_errors self trade) as (_ & _ & _ & Hbooked).
  apply Hbooked; [|exact Hq|exact Hs].
  apply known_effect. by left.
Defined.

(** ** Delisting *)

(** X6.  Delisting is monotone in the date asked about: an instrument delisted as
    of a trading date is delisted as of every later one; an instrument
    without delisting date, or carrying the sentinel date, never is. *)
Theorem is_de_listed_monotone (DEFAULT_DE_LISTED_DATE : datetime)
    (self : BookingPosition.t) (d d' : date) :
  let instrument := instruments (BP._data_proxy self) (BP._order_book_id self) in
  (BP.is_de_listed DEFAULT_DE_LISTED_DATE self d = true → (d ≤ d')%Z →
   BP.is_de_listed DEFAULT_DE_LISTED_DATE self d' = true) ∧
  (de_listed_date instrument = None
   ∨ de_listed_date instrument = Some DEFAULT_DE_LISTED_DATE →
   BP.is_de_listed DEFAULT_DE_LISTED_DATE self d = false).
Proof.
  cbv zeta. unfold BP.is_de_listed. split.
  - destruct (de_listed_date _) as [dld|]; [|done].
    destruct (decide (dld = DEFAULT_DE_LISTED_DATE)); [done|].
    destruct (decide (type _ = "Future")); intros H Hle;
      apply bool_decide_eq_true in H; apply bool_decide_eq_true; lia.
  - intros [->| ->]; [done|].
    by destruct (decide (DEFAULT_DE_LISTED_DATE = DEFAULT_DE_LISTED_DATE)).
Qed.

Lemma is_de_listed_monotone_witness :
  BP.is_de_listed Sample.sentinel Sample.expired 10 = true ∧
  BP.is_de_listed Sample.sentinel Sample.expired 12 = true.
Proof.
  split; [reflexivity|].
  apply (proj1 (is_de_listed_monotone Sample.sentinel Sample.expired 10 12));
    [reflexivity | lia].
Defined.

(** ** Settling a position once, and again *)

Lemma split_ratio_settled (self : BookingPosition.t) (d d' : date) :
  split_ratio (BP.apply_settlement self d) d' = split_ratio self d'.
Proof.
  unfold split_ratio.
  destruct (settlement_identity self d) as (-> & -> & _). done.
Qed.

Lemma settlement_price_settled (self : BookingPosition.t) (d d' : date) :
  settlement_price (BP.apply_settlement self d) d' = settlement_price self d'.
Proof.
  unfold settlement_price.
  destruct (settlement_identity self d) as (-> & -> & _). done.
Qed.

Lemma position_eq (p q : BookingPosition.t) :
  BP._data_proxy p = BP._data_proxy q →
  BP._order_book_id p = BP._order_book_id q →
  BP._direction p = BP._direction q →
  BP._old_quantity p = BP._old_quantity q →
  BP._logical_old_quantity p = BP._logical_old_quantity q →
  BP._today_quantity p = BP._today_quantity q →
  BP._avg_price p = BP._avg_price q →
  BP._prev_settlement_price p = BP._prev_settlement_price q →
  BP._trades p = BP._trades q →
  p = q.
Proof. destruct p, q; simpl; congruence. Qed.

(** X7.  Without a split, settlement keeps the total quantity (all of it is old
    quantity afterwards) and settling the same date again changes nothing
    more. *)
Theorem settlement_without_split (self : BookingPosition.t) (d : date) :
  split_ratio self d = None ∨ split_ratio self d = Some 0 →
  let self' := BP.apply_settlement self d in
  BP.quantity self' = BP.quantity self ∧
  BP._old_quantity self' = BP.quantity self ∧
  BP.apply_settlement self' d = self'.
Proof.
  intros Hs self'.
  assert (Hold : BP._old_quantity self' = BP.quantity self).
  { subst self'. rewrite settlement_old_quantity.
    destruct Hs as [-> | ->]; [done|]. by destruct (decide (0 = 0)). }
  assert (Havg : ∀ p, split_ratio p d = split_ratio self d →
            BP._avg_price (BP.apply_settlement p d) = BP._avg_price p).
  { intros p Hp. rewrite settlement_avg_price, Hp.
    destruct Hs as [-> | ->]; [done|]. by destruct (decide (0 = 0)). }
  assert (Hquantity : BP.quantity self' = BP.quantity self).
  { unfold BP.quantity at 1. unfold BP.old_quantity, BP.today_quantity.
    rewrite Hold. subst self'. rewrite settlement_today_quantity.
    apply Qcplus_0_r. }
  split; [done|]. split; [done|].
  assert (Hs' : split_ratio self' d = split_ratio self d)
    by apply split_ratio_settled.
  assert (Hold' : BP._old_quantity (BP.apply_settlement self' d) = BP.quantity self').
  { rewrite settlement_old_quantity, Hs'.
    destruct Hs as [-> | ->]; [done|]. by destruct (decide (0 = 0)). }
  destruct (settlement_identity self' d) as (Hdp & Hid & Hdir).
  apply position_eq; try done.
  - by rewrite Hold', Hquantity, Hold.
  - rewrite settlement_logical_old_quantity, Hquantity.
    subst self'. by rewrite settlement_logical_old_quantity.
  - subst self'. by rewrite !settlement_today_quantity.
  - by apply Havg.
  - subst self'.
    by rewrite !settlement_prev_settlement_price, settlement_price_settled.
  - subst self'. by rewrite !settlement_trades.
Qed.

Lemma settlement_without_split_witness :
  let self := Sample.position Sample.no_split 5 3 100 ∅ in
  let self' := BP.apply_settlement self 7 in
  split_ratio self 7 = None ∧
  BP.quantity self' = BP.quantity self ∧
  BP.apply_settlement self' 7 = self'.
Proof.
  intros self self'. split; [reflexivity|].
  destruct (settlement_without_split self 7 (or_introl eq_refl)) as (Hq & _ & Hi).
  split; [exact Hq | exact Hi].
Defined.

(** X8.  With a split in effect settlement is not repeatable: settling the same
    date a second time applies the ratio a second time. *)
Theorem settlement_twice_splits_twice
    (self : BookingPosition.t) (d : date) (r : Qc) :
  split_ratio self d = Some r → r ≠ 0 →
  let twice := BP.apply_settlement (BP.apply_settlement self d) d in
  BP._old_quantity twice = BP.quantity self * r * r ∧
  BP._avg_price twice = BP._avg_price self / r / r ∧
  BP._logical_old_quantity twice = BP.quantity self * r.
Proof.
  intros Hs Hr. cbv zeta.
  assert (Hold : BP._old_quantity (BP.apply_settlement self d) = BP.quantity self * r).
  { rewrite settlement_old_quantity, Hs. by destruct (decide (r = 0)). }
  assert (Hq : BP.quantity (BP.apply_settlement self d) = BP.quantity self * r).
  { unfold BP.quantity at 1. unfold BP.old_quantity, BP.today_quantity.
    rewrite Hold, settlement_today_quantity. apply Qcplus_0_r. }
  rewrite settlement_old_quantity, settlement_avg_price,
    settlement_logical_old_quantity, split_ratio_settled, Hs, Hq.
  destruct (decide (r = 0)); [done|].
  split; [done|]. split; [|done].
  rewrite settlement_avg_price, Hs. by destruct (decide (r = 0)).
Qed.

Lemma settlement_twice_splits_twice_witness :
  let self := Sample.position (Sample.split_by (Qc_of_Z 2)) 10 0 100 ∅ in
  let twice := BP.apply_settlement (BP.apply_settlement self 5) 5 in
  split_ratio self 5 = Some (Qc_of_Z 2) ∧ Qc_of_Z 2 ≠ 0 ∧
  BP._old_quantity twice = BP.quantity self * Qc_of_Z 2 * Qc_of_Z 2.
Proof.
  intros self twice.
  assert (Hr : Qc_of_Z 2 ≠ 0) by discriminate.
  split; [reflexivity|]. split; [exact Hr|].
  exact (proj1 (settlement_twice_splits_twice self 5 (Qc_of_Z 2) eq_refl Hr)).
Defined.

(** ** Profit and loss *)

Section pnl.

Variable current_snapshot : DataProxy → string → Snapshot.t.

Lemma trading_pnl_step_frame (p q : BookingPosition.t) (trade : Trade) (pnl : Qc) :
  BP._data_proxy p = BP._data_proxy q →
  BP._order_book_id p = BP._order_book_id q →
  BP.trading_pnl_step current_snapshot p trade pnl
  = BP.trading_pnl_step current_snapshot q trade pnl.
Proof.
  intros Hdp Hid. unfold BP.trading_pnl_step, BP.last_price.
  destruct trade. by rewrite Hdp, Hid.
Qed.

Lemma trading_pnl_step_comm (p : BookingPosition.t) (t1 t2 : Trade) (pnl : Qc) :
  BP.trading_pnl_step current_snapshot p t1
    (BP.trading_pnl_step current_snapshot p t2 pnl)
  = BP.trading_pnl_step current_snapshot p t2
      (BP.trading_pnl_step current_snapshot p t1 pnl).
Proof. unfold BP.trading_pnl_step. destruct t1, t2. ring. Qed.

Lemma trading_pnl_insert (p q : BookingPosition.t) (trade : Trade) :
  BP._data_proxy q = BP._data_proxy p →
  BP._order_book_id q = BP._order_book_id p →
  BP._trades p !! exec_id trade = None →
  BP._trades q = <[exec_id trade := trade]> (BP._trades p) →
  BP.trading_pnl current_snapshot q
  = BP.trading_pnl_step current_snapshot p trade
      (BP.trading_pnl current_snapshot p).
Proof.
  intros Hdp Hid Hfresh Htrades. unfold BP.trading_pnl. rewrite Htrades.
  assert (Hext : ∀ m : gmap Z Trade,
            map_fold (λ _ t pnl, BP.trading_pnl_step current_snapshot q t pnl) 0 m
            = map_fold (λ _ t pnl, BP.trading_pnl_step current_snapshot p t pnl) 0 m).
  { intros m. rewrite !map_fold_foldr. apply foldr_ext; [|done..].
    intros [k t] acc. simpl. by apply trading_pnl_step_frame. }
  rewrite Hext.
  by rewrite map_fold_insert_L; [|intros; apply trading_pnl_step_comm|].
Qed.

(** X10.  Intraday PnL is the sum of the cached trades' contributions: a position
    without cached trades has none, booking a trade adds that trade's
    quantity times the contract multiplier times its spread to the last
    price (last price minus trade price for BUY, the reverse otherwise), and
    settlement brings it back to 0. *)
Theorem trading_pnl_accumulates
    (self self' : BookingPosition.t) (trade : Trade) (d : date) :
  (BP._trades self = ∅ → BP.trading_pnl current_snapshot self = 0) ∧
  BP.trading_pnl current_snapshot (BP.apply_settlement self d) = 0 ∧
  (BP._trades self !! exec_id trade = None →
   BP.apply_trade self trade = Returns self' →
   BP.trading_pnl current_snapshot self'
   = BP.trading_pnl current_snapshot self
     + last_quantity trade
       * contract_multiplier
           (instruments (BP._data_proxy self) (BP._order_book_id self))
       * (if decide (side trade = BUY)
          then BP.last_price current_snapshot self - last_price trade
          else last_price trade - BP.last_price current_snapshot self)).
Proof.
  split; [|split].
  - intros Hempty. unfold BP.trading_pnl. by rewrite Hempty, map_fold_empty.
  - unfold BP.trading_pnl. by rewrite settlement_trades, map_fold_empty.
  - intros Hfresh Hrun.
    destruct (apply_trade_frame self trade) as (_ & _ & Hid & _ & Hdp).
    pose proof (apply_trade_cache_other self trade) as Hother.
    pose proof (apply_trade_cache_new self self' trade Hrun) as Hnew.
    rewrite Hrun in Hid, Hdp, Hother. simpl in Hid, Hdp, Hother.
    rewrite Hfresh in Hnew. simpl in Hnew.
    rewrite (trading_pnl_insert self self' trade); try done.
    + unfold BP.trading_pnl_step. by destruct trade.
    + apply map_eq. intros id. destruct (decide (id = exec_id trade)) as [->|Hne].
      * by rewrite lookup_insert_eq.
      * rewrite lookup_insert_ne by done. by apply Hother.
Qed.

(** X11.  The PnL of the carried position is blind to the day's trades: booking or
    rejecting a trade leaves [position_pnl] as it was. *)
Theorem position_pnl_ignores_trades (self : BookingPosition.t) (trade : Trade) :
  BP.position_pnl current_snapshot (state_of (BP.apply_trade self trade))
  = BP.position_pnl current_snapshot self.
Proof.
  destruct (apply_trade_frame self trade) as (Hl & Hp & Hid & Hdir & Hdp).
  unfold BP.position_pnl, BP.last_price. by rewrite Hl, Hp, Hid, Hdir, Hdp.
Qed.

(** X12.  Right after settlement the carried PnL is that of the whole quantity
    held before it (the baseline is the quantity rolled over, before any
    split), marked from the refreshed settlement price: the quantity times
    the multiplier times the signed move of the last price away from the
    settlement price; it is 0 for a flat position. *)
Theorem position_pnl_after_settlement (self : BookingPosition.t) (d : date) :
  let self' := BP.apply_settlement self d in
  let move := BP.last_price current_snapshot self - settlement_price self d in
  BP.position_pnl current_snapshot self'
  = BP.quantity self
    * contract_multiplier
        (instruments (BP._data_proxy self) (BP._order_book_id self))
    * (if decide (BP._direction self = LONG) then move else - move).
Proof.
  intros self' move. subst self' move.
  destruct (settlement_identity self d) as (Hdp & Hid & Hdir).
  unfold BP.position_pnl, BP.last_price.
  rewrite settlement_logical_old_quantity, settlement_prev_settlement_price,
    Hdp, Hid, Hdir.
  destruct (decide (BP.quantity self = 0)) as [->|_]; [ring|].
  destruct (decide (BP._direction self = LONG)); [done|]. ring.
Qed.

End pnl.

Lemma trading_pnl_accumulates_witness :
  let cs : DataProxy → string → Snapshot.t := λ _ _, Snapshot.mk (Qc_of_Z 110) in
  let self := Sample.position Sample.no_split 5 3 100 ∅ in
  let trade := Sample.trade 1 BUY None 100 6 in
  let self' := state_of (BP.apply_trade self trade) in
  BP.apply_trade self trade = Returns self' ∧
  BP.trading_pnl cs self'
  = BP.trading_pnl cs self
    + Qc_of_Z 6 * 1 * (Qc_of_Z 110 - Qc_of_Z 100).
Proof.
  intros cs self trade self'.
  assert (Hrun : BP.apply_trade self trade = Returns self')
    by (vm_compute; reflexivity).
  split; [exact Hrun|].
  destruct (trading_pnl_accumulates cs self self' trade 0) as (_ & _ & H).
  exact (H eq_refl Hrun).
Defined.

(** ** Create-on-access buckets *)

(** X13.  [get_or_create] (the dict lookup with [__missing__]) hands out the
    position stored under the key, storing first a flat position of the
    bucket's direction when there is none.  It never replaces a stored
    position, touches no other key, and asking again gives the same
    position without changing the bucket any more. *)
Theorem get_or_create_spec (b : BookingPositions.t) (key : string) :
  let p := (BookingPositions.get_or_create b key).1 in
  let b' := (BookingPositions.get_or_create b key).2 in
  BookingPositions.items b' !! key = Some p ∧
  (∀ k, k ≠ key → BookingPositions.items b' !! k = BookingPositions.items b !! k) ∧
  (∀ p0, BookingPositions.items b !! key = Some p0 → p = p0 ∧ b' = b) ∧
  (BookingPositions.items b !! key = None →
   p = BookingPosition.init (BookingPositions._data_proxy b) key
         (BookingPositions.direction b) ∧
   BP.quantity p = 0 ∧ BP._trades p = ∅) ∧
  BookingPositions.direction b' = BookingPositions.direction b ∧
  BookingPositions.get_or_create b' key = (p, b').
Proof.
  cbv zeta. unfold BookingPositions.get_or_create.
  rewrite getitem_spec. cbv zeta. simpl.
  split; [by rewrite lookup_insert_eq|].
  split; [intros k Hk; by rewrite lookup_insert_ne|].
  split.
  { intros p0 Hp0. rewrite Hp0. simpl. split; [done|].
    change (BookingPositions.setitem key p0 b = b). by apply setitem_present. }
  split.
  { intros ->. simpl. split; [done|]. split; [|done].
    unfold BP.quantity, BP.old_quantity, BP.today_quantity. simpl.
    apply Qcplus_0_l. }
  split; [done|].
  rewrite getitem_spec. cbv zeta. simpl. rewrite lookup_insert_eq. simpl.
  f_equal. unfold BookingPositions.setitem, BookingPositions.set_items. simpl.
  by rewrite insert_insert_eq.
Qed.

(** ** Enumerating the positions *)

Lemma get_positions_fold (acc : list BookingPosition.t)
    (m : gmap string BookingPosition.t) :
  map_fold BM.get_positions_step acc m
  = acc ++ reverse (filter (λ p, BP.quantity p ≠ 0) (map_to_list m).*2).
Proof.
  rewrite map_fold_foldr.
  induction (map_to_list m) as [|[k p] l IH]; simpl.
  - by rewrite app_nil_r.
  - rewrite IH. unfold BM.get_positions_step at 1.
    rewrite filter_cons.
    destruct (decide (BP.quantity p = 0)) as [Hz|Hnz].
    + by destruct (decide (BP.quantity p ≠ 0)).
    + destruct (decide (BP.quantity p ≠ 0)); [|done].
      by rewrite reverse_cons, app_assoc.
Qed.

Lemma get_positions_eq (m : BookingModel.t) :
  BM.get_positions m
  = reverse (filter (λ p, BP.quantity p ≠ 0)
               (map_to_list (BookingPositions.items (BM._positions_dict m LONG))).*2)
    ++ reverse (filter (λ p, BP.quantity p ≠ 0)
                  (map_to_list
                     (BookingPositions.items (BM._positions_dict m SHORT))).*2).
Proof. unfold BM.get_positions. simpl. by rewrite !get_positions_fold. Qed.

Lemma elem_of_nonzero_values (m : gmap string BookingPosition.t)
    (p : BookingPosition.t) :
  p ∈ reverse (filter (λ p, BP.quantity p ≠ 0) (map_to_list m).*2)
  ↔ ∃ k, m !! k = Some p ∧ BP.quantity p ≠ 0.
Proof.
  rewrite elem_of_reverse, list_elem_of_filter, list_elem_of_fmap. split.
  - intros (Hq & [k p'] & -> & Hin). apply elem_of_map_to_list in Hin. eauto.
  - intros (k & Hk & Hq). split; [done|]. exists (k, p).
    split; [done|]. by apply elem_of_map_to_list.
Qed.

Lemma elem_of_get_positions (m : BookingModel.t) (p : BookingPosition.t) :
  p ∈ BM.get_positions m ↔ ∃ d k, stored m d k p ∧ BP.quantity p ≠ 0.
Proof.
  rewrite get_positions_eq, elem_of_app, !elem_of_nonzero_values.
  unfold stored. split.
  - intros [(k & Hk & Hq)|(k & Hk & Hq)]; [exists LONG, k|exists SHORT, k]; done.
  - intros ([] & k & Hk & Hq); [left|right]; by exists k.
Qed.

(** X14.  [get_positions] lists the stored positions of non-zero quantity, those
    of both buckets and no others; each entry is listed once (the list is a
    permutation of the non-zero values of the LONG bucket followed by those
    of the SHORT bucket), so a flat position is never reported. *)
Theorem get_positions_spec (m : BookingModel.t) :
  (∀ p, p ∈ BM.get_positions m ↔
        ∃ d k, stored m d k p ∧ BP.quantity p ≠ 0) ∧
  BM.get_positions m ≡ₚ
    filter (λ p, BP.quantity p ≠ 0)
      ((map_to_list (BookingPositions.items (BM._positions_dict m LONG))).*2
       ++ (map_to_list (BookingPositions.items (BM._positions_dict m SHORT))).*2).
Proof.
  split.
  - intros p. apply elem_of_get_positions.
  - by rewrite get_positions_eq, list.filter_app, !reverse_Permutation.
Qed.

(** X15.  Looking a position up may create it, but a position created by a lookup
    is flat: [get_positions] reports the same positions after
    [get_position] as before, and the ledger's dedupe set is as it was. *)
Theorem get_position_invisible (m : BookingModel.t) (k : string)
    (d : POSITION_DIRECTION) :
  let m' := (BM.get_position m k d).2 in
  BM.get_positions m' ≡ₚ BM.get_positions m ∧
  stored m' d k (BM.get_position m k d).1 ∧
  BM._backward_trade_set m' = BM._backward_trade_set m.
Proof.
  cbv zeta. rewrite get_position_spec. simpl.
  split; [|split].
  - destruct (BookingPositions.items (BM._positions_dict m d) !! k) as [p|] eqn:Hk.
    + replace (with_position m k d (target_position m k d)) with m; [done|].
      unfold with_position, target_position. rewrite Hk. simpl.
      by rewrite setitem_present, set_positions_id.
    + assert (Hflat : BP.quantity (target_position m k d) = 0).
      { unfold target_position. rewrite Hk. simpl.
        unfold BP.quantity, BP.old_quantity, BP.today_quantity. simpl.
        apply Qcplus_0_l. }
      assert (Hbucket :
        filter (λ p, BP.quantity p ≠ 0)
          (map_to_list
             (BookingPositions.items
                (BM._positions_dict (with_position m k d (target_position m k d)) d))).*2
        ≡ₚ filter (λ p, BP.quantity p ≠ 0)
             (map_to_list (BookingPositions.items (BM._positions_dict m d))).*2).
      { rewrite items_with_position, map_to_list_insert by done.
        rewrite fmap_cons, filter_cons. simpl.
        by destruct (decide (BP.quantity (target_position m k d) ≠ 0)). }
      rewrite !get_positions_eq, !reverse_Permutation.
      destruct d.
      * rewrite Hbucket.
        by rewrite (positions_dict_with_position_other m k LONG SHORT).
      * rewrite Hbucket.
        by rewrite (positions_dict_with_position_other m k SHORT LONG).
  - unfold stored. by rewrite items_with_position, lookup_insert_eq.
  - apply backward_trade_set_with_position.
Qed.

(** ** The dedupe set *)

(** X16.  [_backward_trade_set] only grows, and by the booked trade's id alone: a
    call of the ledger's [apply_trade] that returns leaves the set with
    exactly that id added, a call that raises leaves it as it was. *)
Theorem backward_trade_set_grows (m : BookingModel.t) (trade : Trade) :
  (∀ m', BM.apply_trade m trade = Returns m' →
     BM._backward_trade_set m' = {[exec_id trade]} ∪ BM._backward_trade_set m) ∧
  (∀ e m', BM.apply_trade m trade = Raises e m' →
     BM._backward_trade_set m' = BM._backward_trade_set m ∧
     exec_id trade ∉ BM._backward_trade_set m) ∧
  BM._backward_trade_set m
    ⊆ BM._backward_trade_set (state_of (BM.apply_trade m trade)).
Proof.
  destruct (decide (exec_id trade ∈ BM._backward_trade_set m)) as [Hin|Hout].
  { rewrite (ledger_apply_trade_seen m trade Hin). cbn [state_of].
    split; [|split; [done|done]].
    intros m' [= <-]. apply set_eq. intros x.
    rewrite elem_of_union, elem_of_singleton. split; [by right|].
    by intros [->|]. }
  rewrite (ledger_apply_trade_fresh m trade Hout).
  destruct (BM.select_direction trade) as [d|].
  - unfold delivered. destruct (BP.apply_trade _ trade) as [p|e p]; cbn [state_of].
    + split; [|split; [done|]].
      * by intros m' [= <-].
      * change (BM._backward_trade_set m
                ⊆ {[exec_id trade]} ∪ BM._backward_trade_set m).
        apply union_subseteq_r.
    + split; [done|]. split.
      * intros e' m' [= <- <-]. by rewrite backward_trade_set_with_position.
      * by rewrite backward_trade_set_with_position.
  - cbn [state_of]. split; [done|]. split; [|done]. by intros e m' [= <- <-].
Qed.

(** X17.  The ledger raises exactly when a trade not seen before has an unknown
    side under an explicit effect, or is rejected by the position it is
    handed to; the error is then [RuntimeError] or [ZeroDivisionError],
    never a [KeyError]. *)
Theorem ledger_apply_trade_errors (m : BookingModel.t) (trade : Trade) :
  ((∃ e m', BM.apply_trade m trade = Raises e m') ↔
     (exec_id trade ∉ BM._backward_trade_set m) ∧
     (BM.select_direction trade = None ∨
      ∃ d e p, BM.select_direction trade = Some d ∧
               BP.apply_trade (target_position m (order_book_id trade) d) trade
               = Raises e p)) ∧
  (∀ e m', BM.apply_trade m trade = Raises e m' →
     e = RuntimeError ∨ e = ZeroDivisionError).
Proof.
  destruct (decide (exec_id trade ∈ BM._backward_trade_set m)) as [Hin|Hout].
  { rewrite (ledger_apply_trade_seen m trade Hin).
    split; [|done]. split; [by intros (? & ? & ?)|by intros [? _]]. }
  rewrite (ledger_apply_trade_fresh m trade Hout).
  destruct (BM.select_direction trade) as [d|].
  - unfold delivered.
    pose proof (apply_trade_raise_kind
                  (target_position m (order_book_id trade) d)) as Hkind.
    destruct (BP.apply_trade _ trade) as [p|e p] eqn:Hrun.
    + split; [|done]. split; [by intros (? & ? & ?)|].
      intros [_ [?|(d' & e & p' & [= <-] & Hr)]]; [done|congruence].
    + split.
      * split; [|intros _; by eexists _, _]. intros _. split; [done|]. right.
        by exists d, e, p.
      * intros e' m' [= <- <-]. by destruct (Hkind p trade e Hrun).
  - split.
    + split; [|intros _; by eexists _, _]. intros _. split; [done|by left].
    + intros e m' [= <- <-]. by left.
Qed.

(** ** Invariants of the ledger *)

Lemma stored_with_position (m : BookingModel.t) (k k' : string)
    (d d' : POSITION_DIRECTION) (p p' : BookingPosition.t) :
  stored (with_position m k d p) d' k' p' ↔
    if decide (d' = d ∧ k' = k) then p' = p else stored m d' k' p'.
Proof.
  unfold stored. destruct (decide (d' = d ∧ k' = k)) as [[-> ->]|Hne].
  - rewrite items_with_position, lookup_insert_eq. split; congruence.
  - destruct (decide (d' = d)) as [->|Hd].
    + rewrite items_with_position, lookup_insert_ne; [done|].
      intros ->. by apply Hne.
    + by rewrite positions_dict_with_position_other.
Qed.

Lemma bucket_attrs_with_position (m : BookingModel.t) (k : string)
    (d d' : POSITION_DIRECTION) (p : BookingPosition.t) :
  BookingPositions.direction (BM._positions_dict (with_position m k d p) d')
  = BookingPositions.direction (BM._positions_dict m d') ∧
  BookingPositions._data_proxy (BM._positions_dict (with_position m k d p) d')
  = BookingPositions._data_proxy (BM._positions_dict m d').
Proof. unfold with_position. by destruct d, d'. Qed.

Lemma stored_set_backward_trade_set (m : BookingModel.t) (s : gset Z)
    (d : POSITION_DIRECTION) (k : string) (p : BookingPosition.t) :
  stored (BM.set_backward_trade_set s m) d k p ↔ stored m d k p.
Proof. unfold stored. by destruct d. Qed.

(** The state the ledger's [apply_trade] leaves, returned or raised. *)
Lemma ledger_apply_trade_state (m : BookingModel.t) (trade : Trade) :
  let k := order_book_id trade in
  state_of (BM.apply_trade m trade) = m ∨
  ∃ d, BM.select_direction trade = Some d ∧
       (exec_id trade ∉ BM._backward_trade_set m) ∧
       let p := state_of (BP.apply_trade (target_position m k d) trade) in
       (state_of (BM.apply_trade m trade) = with_position m k d p ∨
        state_of (BM.apply_trade m trade)
        = BM.set_backward_trade_set
            ({[exec_id trade]} ∪ BM._backward_trade_set m)
            (with_position m k d p)).
Proof.
  cbv zeta.
  destruct (decide (exec_id trade ∈ BM._backward_trade_set m)) as [Hin|Hout].
  { left. by rewrite ledger_apply_trade_seen. }
  rewrite (ledger_apply_trade_fresh m trade Hout).
  destruct (BM.select_direction trade) as [d|]; [|by left].
  right. exists d. split; [done|]. split; [done|].
  unfold delivered. destruct (BP.apply_trade _ trade); [by right|by left].
Qed.

Lemma backward_trade_set_kept (m : BookingModel.t) (trade : Trade) (id : Z) :
  id ∈ BM._backward_trade_set m →
  id ∈ BM._backward_trade_set (state_of (BM.apply_trade m trade)).
Proof.
  intros Hid.
  destruct (ledger_apply_trade_state m trade) as [->|(d & _ & _ & Hstate)];
    [done|].
  cbv zeta in Hstate. destruct Hstate as [-> | ->].
  - by rewrite backward_trade_set_with_position.
  - simpl. apply elem_of_union. by right.
Qed.

Lemma target_position_keyed (m : BookingModel.t) (k : string)
    (d : POSITION_DIRECTION) :
  well_keyed m →
  BP._order_book_id (target_position m k d) = k ∧
  BP._direction (target_position m k d)
  = BookingPositions.direction (BM._positions_dict m d) ∧
  BP._data_proxy (target_position m k d)
  = BookingPositions._data_proxy (BM._positions_dict m d).
Proof.
  intros Hwk. unfold target_position.
  destruct (BookingPositions.items (BM._positions_dict m d) !! k) as [p|] eqn:Hk.
  - by apply Hwk.
  - done.
Qed.

Section settlement_attrs.

Variables (DEFAULT_DE_LISTED_DATE : datetime) (trading_date : date).

Lemma scan_bucket_attrs (d : POSITION_DIRECTION) (b : BookingPositions.t)
    (dl0 : list (string * POSITION_DIRECTION)) :
  let r := BM.scan_bucket DEFAULT_DE_LISTED_DATE trading_date d b dl0 in
  BookingPositions.direction r.2 = BookingPositions.direction b ∧
  BookingPositions._data_proxy r.2 = BookingPositions._data_proxy b.
Proof.
  cbv zeta. unfold BM.scan_bucket.
  destruct (scan_fold DEFAULT_DE_LISTED_DATE trading_date d b dl0
              (BookingPositions.items b)) as (_ & _ & _ & _ & Hdir & Hdp & _).
  done.
Qed.

Lemma scan_attrs (m : BookingModel.t) (d : POSITION_DIRECTION) :
  let r := BM.scan DEFAULT_DE_LISTED_DATE m trading_date in
  BookingPositions.direction (BM._positions_dict r.2 d)
  = BookingPositions.direction (BM._positions_dict m d) ∧
  BookingPositions._data_proxy (BM._positions_dict r.2 d)
  = BookingPositions._data_proxy (BM._positions_dict m d).
Proof.
  cbv zeta. unfold BM.scan.
  pose proof (scan_bucket_attrs LONG (BM._positions_dict m LONG) []) as HL.
  destruct (BM.scan_bucket _ _ LONG _ []) as [dl1 long].
  pose proof (scan_bucket_attrs SHORT
                (BM._positions_dict (BM.set_positions LONG long m) SHORT) dl1) as HS.
  destruct (BM.scan_bucket _ _ SHORT _ dl1) as [dl2 short].
  simpl in *. by destruct d.
Qed.

Lemma pop_all_attrs (dl : list (string * POSITION_DIRECTION))
    (m m' : BookingModel.t) (d : POSITION_DIRECTION) :
  BM.pop_all dl m = Returns m' →
  BookingPositions.direction (BM._positions_dict m' d)
  = BookingPositions.direction (BM._positions_dict m d) ∧
  BookingPositions._data_proxy (BM._positions_dict m' d)
  = BookingPositions._data_proxy (BM._positions_dict m d).
Proof.
  revert m. induction dl as [|[k0 d0] dl IH]; intros m; simpl.
  - by intros [= <-].
  - unfold BookingPositions.pop.
    destruct (BookingPositions.items (BM._positions_dict m d0) !! k0); [|done].
    intros Hrun. destruct (IH _ Hrun) as [-> ->]. by destruct d, d0.
Qed.

Lemma ledger_settlement_attrs (m m' : BookingModel.t) (d : POSITION_DIRECTION) :
  BM.apply_settlement DEFAULT_DE_LISTED_DATE m trading_date = Returns m' →
  BookingPositions.direction (BM._positions_dict m' d)
  = BookingPositions.direction (BM._positions_dict m d) ∧
  BookingPositions._data_proxy (BM._positions_dict m' d)
  = BookingPositions._data_proxy (BM._positions_dict m d).
Proof.
  unfold BM.apply_settlement.
  pose proof (scan_attrs m d) as Hscan.
  destruct (BM.scan _ m trading_date) as [dl m1]. simpl in Hscan.
  intros Hrun. destruct (pop_all_attrs dl m1 m' d Hrun) as [-> ->]. done.
Qed.

(** What is stored after the ledger's settlement: the settled image of a
    position that was neither delisted nor flat. *)
Lemma stored_after_settlement (m m' : BookingModel.t) (d : POSITION_DIRECTION)
    (k : string) (p' : BookingPosition.t) :
  BM.apply_settlement DEFAULT_DE_LISTED_DATE m trading_date = Returns m' →
  stored m' d k p' →
  ∃ p, stored m d k p ∧
       p' = BP.apply_settlement p trading_date ∧
       BP.is_de_listed DEFAULT_DE_LISTED_DATE p trading_date = false ∧
       BP.quantity p ≠ 0.
Proof.
  intros Hrun Hst. unfold stored in *.
  destruct (ledger_apply_settlement_spec DEFAULT_DE_LISTED_DATE trading_date m)
    as (m'' & Hrun' & _ & Hitems).
  rewrite Hrun in Hrun'. injection Hrun' as <-.
  rewrite Hitems in Hst.
  destruct (BookingPositions.items (BM._positions_dict m d) !! k) as [p|];
    [|done].
  simpl in Hst. unfold settled_entry in Hst.
  destruct (BP.is_de_listed _ p trading_date) eqn:Hlisted; [done|].
  destruct (bool_decide (BP.quantity p = 0)) eqn:Hq; [done|].
  simpl in Hst. injection Hst as <-.
  exists p. split; [done|]. split; [done|]. split; [done|].
  by apply bool_decide_eq_false in Hq.
Qed.

End settlement_attrs.

Lemma settlement_quantity (self : BookingPosition.t) (d : date) :
  BP.quantity (BP.apply_settlement self d)
  = match split_ratio self d with
    | Some r => if decide (r = 0) then BP.quantity self else BP.quantity self * r
    | None => BP.quantity self
    end.
Proof.
  unfold BP.quantity at 1. unfold BP.old_quantity, BP.today_quantity.
  rewrite settlement_old_quantity, settlement_today_quantity.
  apply Qcplus_0_r.
Qed.

(** X20.  After the ledger's settlement every position it still holds is live: it
    is the settled image of a position that was neither delisted nor flat,
    its quantity is not 0 and is all old quantity, it caches no trade, and
    [get_positions] reports it. *)
Theorem ledger_settlement_leaves_live_positions
    (DEFAULT_DE_LISTED_DATE : datetime) (m m' : BookingModel.t)
    (trading_date : date) (d : POSITION_DIRECTION) (k : string)
    (p' : BookingPosition.t) :
  BM.apply_settlement DEFAULT_DE_LISTED_DATE m trading_date = Returns m' →
  stored m' d k p' →
  (∃ p, stored m d k p ∧ p' = BP.apply_settlement p trading_date ∧
        BP.is_de_listed DEFAULT_DE_LISTED_DATE p trading_date = false ∧
        BP.quantity p ≠ 0) ∧
  BP.quantity p' ≠ 0 ∧
  BP._today_quantity p' = 0 ∧
  BP._trades p' = ∅ ∧
  p' ∈ BM.get_positions m'.
Proof.
  intros Hrun Hst.
  destruct (stored_after_settlement _ _ _ _ _ _ _ Hrun Hst)
    as (p & Hp & -> & Hlisted & Hq).
  assert (Hq' : BP.quantity (BP.apply_settlement p trading_date) ≠ 0).
  { rewrite settlement_quantity.
    destruct (split_ratio p trading_date) as [r|]; [|done].
    destruct (decide (r = 0)) as [|Hr]; [done|].
    intros Hz. by destruct (Qcmult_integral _ _ Hz). }
  split; [by exists p|]. split; [done|].
  split; [apply settlement_today_quantity|].
  split; [apply settlement_trades|].
  apply elem_of_get_positions. by exists d, k.
Qed.

Lemma ledger_settlement_leaves_live_positions_witness :
  ∃ m',
    BM.apply_settlement Sample.sentinel Sample.book 12 = Returns m' ∧
    stored m' LONG "000001.XSHE" (BP.apply_settlement Sample.live 12) ∧
    BP.quantity (BP.apply_settlement Sample.live 12) ≠ 0 ∧
    BP.apply_settlement Sample.live 12 ∈ BM.get_positions m'.
Proof.
  destruct (ledger_apply_settlement_spec Sample.sentinel 12 Sample.book)
    as (m' & Hrun & _ & Hitems).
  assert (Hst : stored m' LONG "000001.XSHE" (BP.apply_settlement Sample.live 12)).
  { unfold stored. rewrite Hitems. reflexivity. }
  exists m'. split; [exact Hrun|]. split; [exact Hst|].
  destruct (ledger_settlement_leaves_live_positions
              Sample.sentinel Sample.book m' 12 LONG "000001.XSHE"
              (BP.apply_settlement Sample.live 12) Hrun Hst)
    as (_ & Hq & _ & _ & Hin).
  split; [exact Hq | exact Hin].
Defined.

Lemma well_keyed_with_position (m : BookingModel.t) (k : string)
    (d : POSITION_DIRECTION) (p : BookingPosition.t) :
  well_keyed m →
  BP._order_book_id p = k →
  BP._direction p = BookingPositions.direction (BM._positions_dict m d) →
  BP._data_proxy p = BookingPositions._data_proxy (BM._positions_dict m d) →
  well_keyed (with_position m k d p).
Proof.
  intros Hwk Hid Hdir Hdp d' k' p' Hst.
  destruct (bucket_attrs_with_position m k d d' p) as [-> ->].
  apply stored_with_position in Hst.
  destruct (decide (d' = d ∧ k' = k)) as [[-> ->]|_].
  - by subst p'.
  - by apply Hwk.
Qed.

Lemma well_keyed_set_backward_trade_set (m : BookingModel.t) (s : gset Z) :
  well_keyed m → well_keyed (BM.set_backward_trade_set s m).
Proof.
  intros Hwk d k p Hst. apply stored_set_backward_trade_set in Hst.
  destruct (Hwk d k p Hst) as (? & ? & ?). by destruct d.
Qed.

(** X21.  The ledger keeps its positions where they belong: starting from an empty
    ledger, every position is stored under its own instrument, in the bucket
    of its own direction, with the bucket's data proxy.  Trades (booked or
    rejected), lookups that create a position and settlement all keep it
    so. *)
Theorem well_keyed_invariant
    (DEFAULT_DE_LISTED_DATE : datetime) (data_proxy : DataProxy)
    (m : BookingModel.t) (trade : Trade) (trading_date : date)
    (k : string) (d : POSITION_DIRECTION) :
  well_keyed (BM.init data_proxy) ∧
  (well_keyed m →
   well_keyed (state_of (BM.apply_trade m trade)) ∧
   well_keyed (BM.get_position m k d).2 ∧
   well_keyed (state_of (BM.apply_settlement DEFAULT_DE_LISTED_DATE m trading_date))).
Proof.
  split.
  { intros [] k' p Hst; unfold stored in Hst; simpl in Hst;
      by rewrite lookup_empty in Hst. }
  intros Hwk. split; [|split].
  - destruct (ledger_apply_trade_state m trade) as [->|(d' & _ & _ & Hstate)];
      [done|].
    cbv zeta in Hstate.
    destruct (target_position_keyed m (order_book_id trade) d' Hwk)
      as (Hid & Hdir & Hdp).
    destruct (apply_trade_frame (target_position m (order_book_id trade) d') trade)
      as (_ & _ & Hid' & Hdir' & Hdp').
    assert (Hwp : well_keyed
              (with_position m (order_book_id trade) d'
                 (state_of (BP.apply_trade
                              (target_position m (order_book_id trade) d') trade))))
      by (apply well_keyed_with_position; [done|congruence..]).
    destruct Hstate as [-> | ->]; [done|].
    by apply well_keyed_set_backward_trade_set.
  - rewrite get_position_spec. simpl.
    destruct (target_position_keyed m k d Hwk) as (Hid & Hdir & Hdp).
    by apply well_keyed_with_position.
  - destruct (ledger_apply_settlement_spec DEFAULT_DE_LISTED_DATE trading_date m)
      as (m' & Hrun & _ & _).
    rewrite Hrun. simpl. intros d' k' p' Hst.
    destruct (stored_after_settlement _ _ _ _ _ _ _ Hrun Hst)
      as (p & Hp & -> & _ & _).
    destruct (ledger_settlement_attrs _ _ m m' d' Hrun) as [-> ->].
    destruct (settlement_identity p trading_date) as (-> & -> & ->).
    by apply Hwk.
Qed.

Lemma well_keyed_invariant_witness :
  let m := Sample.ledger Sample.live ∅ in
  well_keyed m ∧
  well_keyed (state_of (BM.apply_trade m (Sample.trade 1 BUY None 100 6))).
Proof.
  intros m.
  assert (Hwk : well_keyed m).
  { intros d k p Hst. unfold stored in Hst. destruct d; simpl in Hst.
    - destruct (decide (k = "000001.XSHE")) as [->|Hk].
      + rewrite lookup_singleton_eq in Hst. by injection Hst as <-.
      + by rewrite lookup_singleton_ne in Hst.
    - by rewrite lookup_empty in Hst. }
  split; [exact Hwk|].
  destruct (well_keyed_invariant Sample.sentinel Sample.no_split m
              (Sample.trade 1 BUY None 100 6) 12 "000001.XSHE" LONG)
    as (_ & Hkeep).
  exact (proj1 (Hkeep Hwk)).
Defined.

Lemma target_trades_deduped (m : BookingModel.t) (k : string)
    (d : POSITION_DIRECTION) (id : Z) :
  trades_deduped m →
  is_Some (BP._trades (target_position m k d) !! id) →
  id ∈ BM._backward_trade_set m.
Proof.
  intros Hdd. unfold target_position.
  destruct (BookingPositions.items (BM._positions_dict m d) !! k) as [p|] eqn:Hk;
    simpl.
  - by apply (Hdd d k p id).
  - rewrite lookup_empty. by intros [? ?].
Qed.

(** X22.  The two dedupe mechanisms agree: starting from an empty ledger, every
    execution id cached by a stored position is in [_backward_trade_set].
    Trades (booked or rejected), lookups that create a position and
    settlement all keep it so. *)
Theorem trades_deduped_invariant
    (DEFAULT_DE_LISTED_DATE : datetime) (data_proxy : DataProxy)
    (m : BookingModel.t) (trade : Trade) (trading_date : date)
    (k : string) (d : POSITION_DIRECTION) :
  trades_deduped (BM.init data_proxy) ∧
  (trades_deduped m →
   trades_deduped (state_of (BM.apply_trade m trade)) ∧
   trades_deduped (BM.get_position m k d).2 ∧
   trades_deduped
     (state_of (BM.apply_settlement DEFAULT_DE_LISTED_DATE m trading_date))).
Proof.
  split.
  { intros [] k' p id Hst; unfold stored in Hst; simpl in Hst;
      by rewrite lookup_empty in Hst. }
  intros Hdd. split; [|split].
  - destruct (decide (exec_id trade ∈ BM._backward_trade_set m)) as [Hin|Hout].
    { by rewrite ledger_apply_trade_seen. }
    rewrite (ledger_apply_trade_fresh m trade Hout).
    destruct (BM.select_direction trade) as [d0|]; [|done].
    unfold delivered.
    set (k0 := order_book_id trade). set (tp := target_position m k0 d0).
    pose proof (apply_trade_cache_other tp trade) as Hother.
    pose proof (position_apply_trade_outcome tp trade) as Hout'.
    destruct (BP.apply_trade tp trade) as [p|e p]; cbn [state_of] in *.
    + intros d' k' p' id Hst Hid.
      apply stored_set_backward_trade_set, stored_with_position in Hst.
      change (id ∈ {[exec_id trade]} ∪ BM._backward_trade_set m).
      apply elem_of_union.
      destruct (decide (id = exec_id trade)) as [->|Hne];
        [left; by apply elem_of_singleton|right].
      destruct (decide (d' = d0 ∧ k' = k0)) as [[-> ->]|_].
      * subst p'. rewrite (Hother id Hne) in Hid.
        by apply (target_trades_deduped m k0 d0).
      * by apply (Hdd d' k' p' id).
    + subst p. intros d' k' p' id Hst Hid.
      apply stored_with_position in Hst.
      rewrite backward_trade_set_with_position.
      destruct (decide (d' = d0 ∧ k' = k0)) as [[-> ->]|_].
      * subst p'. by apply (target_trades_deduped m k0 d0).
      * by apply (Hdd d' k' p' id).
  - rewrite get_position_spec. simpl. intros d' k' p' id Hst Hid.
    apply stored_with_position in Hst.
    rewrite backward_trade_set_with_position.
    destruct (decide (d' = d ∧ k' = k)) as [[-> ->]|_].
    + subst p'. by apply (target_trades_deduped m k d).
    + by apply (Hdd d' k' p' id).
  - destruct (ledger_apply_settlement_spec DEFAULT_DE_LISTED_DATE trading_date m)
      as (m' & Hrun & _ & _).
    rewrite Hrun. simpl. intros d' k' p' id Hst Hid.
    destruct (stored_after_settlement _ _ _ _ _ _ _ Hrun Hst)
      as (p & _ & -> & _ & _).
    rewrite settlement_trades, lookup_empty in Hid. by destruct Hid.
Qed.

Lemma trades_deduped_invariant_witness :
  let m := BM.init Sample.no_split in
  let trade := Sample.trade 1 BUY None 100 6 in
  trades_deduped m ∧ trades_deduped (state_of (BM.apply_trade m trade)).
Proof.
  intros m trade.
  destruct (trades_deduped_invariant Sample.sentinel Sample.no_split m trade 12
              "000001.XSHE" LONG) as (Hinit & Hkeep).
  split; [exact Hinit|]. exact (proj1 (Hkeep Hinit)).
Defined.

(** X18.  Through the ledger a trade not seen before is really booked, not
    skipped: when the two dedupe mechanisms agree, the position the trade is
    routed to does not cache the trade's id yet, so when the call returns
    the position stored there is the one [BookingPosition.apply_trade]
    returned for the trade, and it caches the trade. *)
Theorem ledger_books_fresh_trade
    (m m' : BookingModel.t) (trade : Trade) (d : POSITION_DIRECTION) :
  trades_deduped m →
  exec_id trade ∉ BM._backward_trade_set m →
  BM.select_direction trade = Some d →
  BM.apply_trade m trade = Returns m' →
  let target := target_position m (order_book_id trade) d in
  BP._trades target !! exec_id trade = None ∧
  ∃ p', BP.apply_trade target trade = Returns p' ∧
        stored m' d (order_book_id trade) p' ∧
        BP._trades p' !! exec_id trade = Some trade.
Proof.
  intros Hdd Hout Hd Hrun target.
  rewrite (ledger_apply_trade_fresh m trade Hout), Hd in Hrun.
  unfold delivered in Hrun. fold target in Hrun.
  assert (Hfresh : BP._trades target !! exec_id trade = None).
  { destruct (BP._trades target !! exec_id trade) as [t|] eqn:Hk; [|done].
    exfalso. apply Hout.
    apply (target_trades_deduped m (order_book_id trade) d); [done|].
    fold target. by rewrite Hk. }
  split; [done|].
  destruct (BP.apply_trade target trade) as [p|? ?] eqn:Hp; [|done].
  injection Hrun as <-. exists p. split; [done|]. split.
  - apply stored_set_backward_trade_set, stored_with_position.
    by destruct (decide (d = d ∧ order_book_id trade = order_book_id trade))
      as [|[]].
  - by rewrite (apply_trade_cache_new target p trade Hp), Hfresh.
Qed.

Lemma ledger_books_fresh_trade_witness :
  let m := BM.init Sample.no_split in
  let trade := Sample.trade 1 SELL (Some OPEN) 100 6 in
  ∃ m' p',
    BM.apply_trade m trade = Returns m' ∧
    BP.apply_trade (target_position m "000001.XSHE" SHORT) trade = Returns p' ∧
    stored m' SHORT "000001.XSHE" p' ∧
    BP._trades p' !! exec_id trade = Some trade.
Proof.
  intros m trade.
  assert (Hdd : trades_deduped m).
  { intros [] k p id Hst; unfold stored in Hst; simpl in Hst;
      by rewrite lookup_empty in Hst. }
  assert (Hout : exec_id trade ∉ BM._backward_trade_set m)
    by apply not_elem_of_empty.
  assert (Hrun : BM.apply_trade m trade
                 = Returns (state_of (BM.apply_trade m trade)))
    by (vm_compute; reflexivity).
  destruct (ledger_books_fresh_trade m _ trade SHORT Hdd Hout eq_refl Hrun)
    as (_ & p' & Hp & Hst & Hc).
  exists (state_of (BM.apply_trade m trade)), p'.
  split; [exact Hrun|]. split; [exact Hp|]. split; [exact Hst | exact Hc].
Defined.

(** ** Trades on different positions *)

Lemma target_position_set_backward_trade_set (m : BookingModel.t) (s : gset Z)
    (k : string) (d : POSITION_DIRECTION) :
  target_position (BM.set_backward_trade_set s m) k d = target_position m k d.
Proof. by destruct d. Qed.

Lemma target_position_other (m : BookingModel.t) (k1 k2 : string)
    (d1 d2 : POSITION_DIRECTION) (p : BookingPosition.t) :
  (d1, k1) ≠ (d2, k2) →
  target_position (with_position m k1 d1 p) k2 d2 = target_position m k2 d2.
Proof.
  intros Hne. unfold target_position.
  destruct (bucket_attrs_with_position m k1 d1 d2 p) as [-> ->].
  f_equal. destruct (decide (d2 = d1)) as [->|Hd].
  - rewrite items_with_position, lookup_insert_ne; [done|]. congruence.
  - by rewrite positions_dict_with_position_other.
Qed.

Lemma with_position_set_backward_trade_set (m : BookingModel.t) (s : gset Z)
    (k : string) (d : POSITION_DIRECTION) (p : BookingPosition.t) :
  with_position (BM.set_backward_trade_set s m) k d p
  = BM.set_backward_trade_set s (with_position m k d p).
Proof. by destruct d. Qed.

Lemma set_backward_trade_set_twice (m : BookingModel.t) (s s' : gset Z) :
  BM.set_backward_trade_set s (BM.set_backward_trade_set s' m)
  = BM.set_backward_trade_set s m.
Proof. done. Qed.

Lemma with_position_comm (m : BookingModel.t) (k1 k2 : string)
    (d1 d2 : POSITION_DIRECTION) (p1 p2 : BookingPosition.t) :
  (d1, k1) ≠ (d2, k2) →
  with_position (with_position m k1 d1 p1) k2 d2 p2
  = with_position (with_position m k2 d2 p2) k1 d1 p1.
Proof.
  intros Hne. destruct m as [dp [dl pl il] [ds ps ish] s].
  unfold with_position, BookingPositions.setitem, BookingPositions.set_items.
  destruct d1, d2; simpl; try done;
    (rewrite insert_insert_ne; [done|congruence]).
Qed.

(** The state after a trade not seen before that is routed to [d]. *)
Lemma ledger_state_fresh (m : BookingModel.t) (trade : Trade)
    (d : POSITION_DIRECTION) :
  exec_id trade ∉ BM._backward_trade_set m →
  BM.select_direction trade = Some d →
  state_of (BM.apply_trade m trade)
  = match BP.apply_trade (target_position m (order_book_id trade) d) trade with
    | Returns p =>
        BM.set_backward_trade_set ({[exec_id trade]} ∪ BM._backward_trade_set m)
          (with_position m (order_book_id trade) d p)
    | Raises _ p => with_position m (order_book_id trade) d p
    end.
Proof.
  intros Hout Hd. rewrite (ledger_apply_trade_fresh m trade Hout), Hd.
  unfold delivered. by destruct (BP.apply_trade _ trade).
Qed.

(** X19.  Trades with different execution ids that are routed to different
    positions (another instrument or the other bucket) do not interfere: the
    ledger ends in the same state whichever is applied first. *)
Theorem trades_on_distinct_positions_commute
    (m : BookingModel.t) (t1 t2 : Trade) (d1 d2 : POSITION_DIRECTION) :
  exec_id t1 ≠ exec_id t2 →
  BM.select_direction t1 = Some d1 →
  BM.select_direction t2 = Some d2 →
  (d1, order_book_id t1) ≠ (d2, order_book_id t2) →
  state_of (BM.apply_trade (state_of (BM.apply_trade m t1)) t2)
  = state_of (BM.apply_trade (state_of (BM.apply_trade m t2)) t1).
Proof.
  intros Hid Hd1 Hd2 Hne.
  assert (Hseen : ∀ a b : Trade,
            exec_id a ≠ exec_id b →
            exec_id a ∈ BM._backward_trade_set m →
            state_of (BM.apply_trade (state_of (BM.apply_trade m a)) b)
            = state_of (BM.apply_trade (state_of (BM.apply_trade m b)) a)).
  { intros a b Hab Hin. rewrite (ledger_apply_trade_seen m a Hin). simpl.
    symmetry. rewrite ledger_apply_trade_seen; [done|].
    by apply backward_trade_set_kept. }
  destruct (decide (exec_id t1 ∈ BM._backward_trade_set m)) as [Hin1|Hout1].
  { by apply (Hseen t1 t2). }
  destruct (decide (exec_id t2 ∈ BM._backward_trade_set m)) as [Hin2|Hout2].
  { symmetry. apply (Hseen t2 t1); [congruence|done]. }
  set (k1 := order_book_id t1) in *. set (k2 := order_book_id t2) in *.
  rewrite (ledger_state_fresh m t1 d1 Hout1 Hd1).
  rewrite (ledger_state_fresh m t2 d2 Hout2 Hd2).
  fold k1 k2.
  destruct (BP.apply_trade (target_position m k1 d1) t1) as [p1|e1 p1] eqn:H1;
    destruct (BP.apply_trade (target_position m k2 d2) t2) as [p2|e2 p2] eqn:H2.
  - rewrite (ledger_state_fresh _ t2 d2);
      [|simpl; rewrite elem_of_union, elem_of_singleton; by intros [|]|done].
    rewrite (ledger_state_fresh _ t1 d1);
      [|simpl; rewrite elem_of_union, elem_of_singleton; intros [|]; congruence
       |done].
    fold k1 k2.
    rewrite !target_position_set_backward_trade_set.
    rewrite (target_position_other m k1 k2 d1 d2) by done.
    rewrite (target_position_other m k2 k1 d2 d1) by congruence.
    rewrite H1, H2. rewrite !with_position_set_backward_trade_set.
    rewrite !set_backward_trade_set_twice.
    rewrite (with_position_comm m k1 k2 d1 d2) by done.
    f_equal. cbn [BM._backward_trade_set BM.set_backward_trade_set].
    rewrite !(assoc_L (∪)). f_equal. apply (comm_L (∪)).
  - rewrite (ledger_state_fresh _ t2 d2);
      [|simpl; rewrite elem_of_union, elem_of_singleton; by intros [|]|done].
    rewrite (ledger_state_fresh _ t1 d1);
      [|by rewrite backward_trade_set_with_position|done].
    fold k1 k2.
    rewrite !target_position_set_backward_trade_set.
    rewrite (target_position_other m k1 k2 d1 d2) by done.
    rewrite (target_position_other m k2 k1 d2 d1) by congruence.
    rewrite H1, H2. rewrite !with_position_set_backward_trade_set.
    rewrite (with_position_comm m k1 k2 d1 d2) by done.
    f_equal. by rewrite !backward_trade_set_with_position.
  - rewrite (ledger_state_fresh _ t2 d2);
      [|by rewrite backward_trade_set_with_position|done].
    rewrite (ledger_state_fresh _ t1 d1);
      [|simpl; rewrite elem_of_union, elem_of_singleton; intros [|]; congruence
       |done].
    fold k1 k2.
    rewrite !target_position_set_backward_trade_set.
    rewrite (target_position_other m k1 k2 d1 d2) by done.
    rewrite (target_position_other m k2 k1 d2 d1) by congruence.
    rewrite H1, H2. rewrite !with_position_set_backward_trade_set.
    rewrite (with_position_comm m k1 k2 d1 d2) by done.
    f_equal. by rewrite !backward_trade_set_with_position.
  - rewrite (ledger_state_fresh _ t2 d2);
      [|by rewrite backward_trade_set_with_position|done].
    rewrite (ledger_state_fresh _ t1 d1);
      [|by rewrite backward_trade_set_with_position|done].
    fold k1 k2.
    rewrite (target_position_other m k1 k2 d1 d2) by done.
    rewrite (target_position_other m k2 k1 d2 d1) by congruence.
    rewrite H1, H2. by rewrite (with_position_comm m k1 k2 d1 d2).
Qed.

Lemma trades_on_distinct_positions_commute_witness :
  let m := Sample.ledger Sample.live ∅ in
  let t1 := Sample.trade 1 SELL None 100 6 in
  let t2 := Sample.trade 2 SELL (Some OPEN) 100 4 in
  exec_id t1 ≠ exec_id t2 ∧
  BM.select_direction t1 = Some LONG ∧
  BM.select_direction t2 = Some SHORT ∧
  state_of (BM.apply_trade (state_of (BM.apply_trade m t1)) t2)
  = state_of (BM.apply_trade (state_of (BM.apply_trade m t2)) t1).
Proof.
  intros m t1 t2.
  assert (Hid : exec_id t1 ≠ exec_id t2) by discriminate.
  split; [exact Hid|]. split; [reflexivity|]. split; [reflexivity|].
  apply (trades_on_distinct_positions_commute m t1 t2 LONG SHORT Hid eq_refl eq_refl).
  discriminate.
Defined.
